(** * StudySim-AI: the generation orchestration core of [services/geminiService.ts]

    A shallow embedding of the service functions that drive the remote
    generation endpoint: the Pro -> Flash fallback helper, fact retrieval,
    topic analysis, simulator extraction, quiz generation and the Veo video
    poller, followed by the properties stated about them.

    Conventions.
    - A JavaScript string is a [string]: an ASCII character is one
      [ascii], any other character its UTF-8 bytes.  The patterns the code
      searches for are all ASCII, so a search finds the same text in
      either encoding.  [code_units] reads the UTF-16 code units off the
      bytes, and [slice0] counts code units, as in JavaScript.
    - [x || d] on a possibly-undefined string is [truthy_or x d]: the empty
      string is falsy, as in JavaScript.
    - An [async] function is a computation over the trace of observable
      events (remote calls, timers, console output); [await] is [bind].
    - The remote endpoint is a parameter ([Remote]): its answers may depend
      on everything that happened before. *)

From Stdlib Require Import List String Ascii ZArith QArith Bool Arith Lia.
Import ListNotations.
Close Scope Q_scope.
Open Scope string_scope.

(* ================================================================== *)
(** ** JavaScript strings *)

Module JsString.

(** [s.startsWith(p)], returning what follows the prefix. *)
Fixpoint strip_prefix (p s : string) : option string :=
  match p, s with
  | EmptyString, _ => Some s
  | String a p', String b s' => if Ascii.eqb a b then strip_prefix p' s' else None
  | String _ _, EmptyString => None
  end.

(** The text before and after the first occurrence of [pat] in [s]. *)
Fixpoint split_first (pat s : string) : option (string * string) :=
  match strip_prefix pat s with
  | Some rest => Some (EmptyString, rest)
  | None =>
      match s with
      | EmptyString => None
      | String c s' =>
          match split_first pat s' with
          | Some (before, rest) => Some (String c before, rest)
          | None => None
          end
      end
  end.

(** [s.includes(pat)] *)
Definition includes (pat s : string) : bool :=
  match split_first pat s with Some _ => true | None => false end.

Definition byte (c : ascii) : N := N_of_ascii c.

(** The code unit of a two-byte and of a three-byte sequence. *)
Definition unit2 (c1 c2 : ascii) : N :=
  ((byte c1 mod 32) * 64 + byte c2 mod 64)%N.

Definition unit3 (c1 c2 c3 : ascii) : N :=
  ((byte c1 mod 16) * 4096 + (byte c2 mod 64) * 64 + byte c3 mod 64)%N.

(** A four-byte sequence is a character beyond U+FFFF, which JavaScript
    holds as two code units, a high and a low surrogate. *)
Definition astral (c1 c2 c3 c4 : ascii) : N :=
  (((byte c1 mod 8) * 262144 + (byte c2 mod 64) * 4096
    + (byte c3 mod 64) * 64 + byte c4 mod 64 - 65536) mod 1048576)%N.

Definition high_surrogate (c1 c2 c3 c4 : ascii) : N :=
  (55296 + astral c1 c2 c3 c4 / 1024)%N.

Definition low_surrogate (c1 c2 c3 c4 : ascii) : N :=
  (56320 + astral c1 c2 c3 c4 mod 1024)%N.

(** The UTF-16 code units of a string.  The first byte of a sequence
    tells its length; a byte below 0xC0 stands alone, and a sequence cut
    short by the end of the string counts as one unit. *)
Fixpoint code_units (s : string) : list N :=
  match s with
  | EmptyString => []
  | String c1 r1 =>
      if (byte c1 <? 192)%N then byte c1 :: code_units r1
      else if (byte c1 <? 224)%N then
        match r1 with
        | String c2 r2 => unit2 c1 c2 :: code_units r2
        | EmptyString => [byte c1]
        end
      else if (byte c1 <? 240)%N then
        match r1 with
        | String c2 (String c3 r3) => unit3 c1 c2 c3 :: code_units r3
        | _ => [byte c1]
        end
      else
        match r1 with
        | String c2 (String c3 (String c4 r4)) =>
            high_surrogate c1 c2 c3 c4 :: low_surrogate c1 c2 c3 c4
            :: code_units r4
        | _ => [byte c1]
        end
  end.

(** A surrogate on its own, in three bytes. *)
Definition lone_surrogate (h : N) : string :=
  String (ascii_of_N 237)
    (String (ascii_of_N (128 + (h / 64) mod 64))
       (String (ascii_of_N (128 + h mod 64)) EmptyString)).

(** The first [n] code units of [s].  A cut between the two code units
    of a four-byte character keeps its high surrogate. *)
Fixpoint slice_units (n : nat) (s : string) : string :=
  match n, s with
  | O, _ => EmptyString
  | S _, EmptyString => EmptyString
  | S n', String c1 r1 =>
      if (byte c1 <? 192)%N then String c1 (slice_units n' r1)
      else if (byte c1 <? 224)%N then
        match r1 with
        | String c2 r2 => String c1 (String c2 (slice_units n' r2))
        | EmptyString => s
        end
      else if (byte c1 <? 240)%N then
        match r1 with
        | String c2 (String c3 r3) =>
            String c1 (String c2 (String c3 (slice_units n' r3)))
        | _ => s
        end
      else
        match r1 with
        | String c2 (String c3 (String c4 r4)) =>
            match n' with
            | O => lone_surrogate (high_surrogate c1 c2 c3 c4)
            | S n'' =>
                String c1 (String c2 (String c3 (String c4 (slice_units n'' r4))))
            end
        | _ => s
        end
  end.

(** [s.slice(0, n)] *)
Definition slice0 (n : N) (s : string) : string := slice_units (N.to_nat n) s.

(** JavaScript truthiness of a possibly-undefined string. *)
Definition truthy (x : option string) : bool :=
  match x with
  | Some (String _ _) => true
  | _ => false
  end.

(** [x || d] *)
Definition truthy_or (x : option string) (d : string) : string :=
  match x with
  | Some (String c s) => String c s
  | _ => d
  end.

(** The three backticks that open and close a Markdown fence. *)
Definition FENCE : string := "```".

(** [s.match(/OPENING([\s\S]*?)```/)], giving capture group 1.

    The search tries every start position from the left.  At a position
    where [opening] matches, the lazy [[\s\S]*?] grows one code unit at a
    time until the closing backticks match, so the group is the text
    before the first closing fence; when no closing fence follows, the
    search moves on to the next start position. *)
Fixpoint match_fence (opening s : string) : option string :=
  let here :=
    match strip_prefix opening s with
    | Some rest => option_map fst (split_first FENCE rest)
    | None => None
    end in
  match here with
  | Some group => Some group
  | None =>
      match s with
      | EmptyString => None
      | String _ s' => match_fence opening s'
      end
  end.

End JsString.
Import JsString.

(* ================================================================== *)
(** ** The host's [JSON.parse]

    [JSON.parse] is a built-in of the JavaScript host, not code of the
    service; it is modelled by a recursive-descent parser for the JSON
    grammar (ECMA-404).  Numbers keep the exact decimal value of the
    literal (the rounding to binary64 is not modelled); a [\uXXXX] escape
    above U+007F is stored in its UTF-8 form. *)

Module Json.

#[warnings="-register-all"]
Inductive value : Type :=
| JNull
| JBool (b : bool)
| JNumber (q : Q)
| JString (s : string)
| JArray (items : list value)
| JObject (fields : list (string * value)).

Definition DQUOTE : ascii := ascii_of_nat 34.
Definition BACKSLASH : ascii := ascii_of_nat 92.

Definition is_ws (c : ascii) : bool :=
  let n := nat_of_ascii c in
  ((n =? 32) || (n =? 9) || (n =? 10) || (n =? 13))%nat.

Fixpoint skip_ws (s : string) : string :=
  match s with
  | String c s' => if is_ws c then skip_ws s' else s
  | EmptyString => EmptyString
  end.

Definition digit_of (c : ascii) : option Z :=
  let n := nat_of_ascii c in
  if ((48 <=? n) && (n <=? 57))%nat then Some (Z.of_nat (n - 48)) else None.

Definition hex_of (c : ascii) : option N :=
  let n := nat_of_ascii c in
  if ((48 <=? n) && (n <=? 57))%nat then Some (N.of_nat (n - 48))
  else if ((65 <=? n) && (n <=? 70))%nat then Some (N.of_nat (n - 55))
  else if ((97 <=? n) && (n <=? 102))%nat then Some (N.of_nat (n - 87))
  else None.

Definition chr (n : N) : ascii := ascii_of_N n.

(** The code unit of a [\uXXXX] escape, as stored in a [string]. *)
Definition encode_unit (n : N) : string :=
  if (n <? 128)%N then String (chr n) EmptyString
  else if (n <? 2048)%N then
    String (chr (192 + N.shiftr n 6))
      (String (chr (128 + N.land n 63)) EmptyString)
  else
    String (chr (224 + N.shiftr n 12))
      (String (chr (128 + N.land (N.shiftr n 6) 63))
         (String (chr (128 + N.land n 63)) EmptyString)).

(** The characters of a string literal after its opening quote, up to and
    including the closing quote. *)
Fixpoint parse_chars (s : string) : option (string * string) :=
  match s with
  | EmptyString => None
  | String c rest =>
      if Ascii.eqb c DQUOTE then Some (EmptyString, rest)
      else if Ascii.eqb c BACKSLASH then
        match rest with
        | String e rest' =>
            let simple (x : nat) :=
              match parse_chars rest' with
              | Some (body, out) => Some (String (ascii_of_nat x) body, out)
              | None => None
              end in
            if Ascii.eqb e DQUOTE then simple 34
            else if Ascii.eqb e BACKSLASH then simple 92
            else if Ascii.eqb e "/" then simple 47
            else if Ascii.eqb e "b" then simple 8
            else if Ascii.eqb e "f" then simple 12
            else if Ascii.eqb e "n" then simple 10
            else if Ascii.eqb e "r" then simple 13
            else if Ascii.eqb e "t" then simple 9
            else if Ascii.eqb e "u" then
              match rest' with
              | String h1 (String h2 (String h3 (String h4 rest''))) =>
                  match hex_of h1, hex_of h2, hex_of h3, hex_of h4 with
                  | Some a, Some b, Some c', Some d =>
                      match parse_chars rest'' with
                      | Some (body, out) =>
                          Some (encode_unit (((a * 16 + b) * 16 + c') * 16 + d)
                                  ++ body, out)
                      | None => None
                      end
                  | _, _, _, _ => None
                  end
              | _ => None
              end
            else None
        | EmptyString => None
        end
      else if (nat_of_ascii c <? 32)%nat then None
      else
        match parse_chars rest with
        | Some (body, out) => Some (String c body, out)
        | None => None
        end
  end.

(** A maximal run of decimal digits: its value, its length, the rest. *)
Fixpoint parse_digits (acc : Z) (len : nat) (s : string) : Z * nat * string :=
  match s with
  | String c rest =>
      match digit_of c with
      | Some d => parse_digits (acc * 10 + d) (S len) rest
      | None => (acc, len, s)
      end
  | EmptyString => (acc, len, s)
  end.

(** [m * 10^e] as an exact rational. *)
Definition decimal (m e : Z) : Q :=
  if (0 <=? e)%Z then inject_Z (m * 10 ^ e)
  else Qred (Qmake m (Z.to_pos (10 ^ (- e)))).

(** number = [-] int [frac] [exp] *)
Definition parse_number (s : string) : option (Q * string) :=
  let (neg, s1) :=
    match s with
    | String "-" r => (true, r)
    | _ => (false, s)
    end in
  let int_part :=
    match s1 with
    | String "0" r => Some (0%Z, r)
    | String c _ =>
        match digit_of c with
        | Some _ => let '(v, _, r) := parse_digits 0 0 s1 in Some (v, r)
        | None => None
        end
    | EmptyString => None
    end in
  match int_part with
  | None => None
  | Some (i, s2) =>
      let frac_part :=
        match s2 with
        | String "." r =>
            let '(v, len, r') := parse_digits i 0 r in
            match len with
            | O => None
            | _ => Some (v, Z.of_nat len, r')
            end
        | _ => Some (i, 0%Z, s2)
        end in
      match frac_part with
      | None => None
      | Some (m, scale, s3) =>
          let exp_digits (sign : Z) (r : string) :=
            let '(v, len, r') := parse_digits 0 0 r in
            match len with
            | O => None
            | _ => Some ((sign * v)%Z, r')
            end in
          let exp_part :=
            match s3 with
            | String c r =>
                if Ascii.eqb c "e" || Ascii.eqb c "E" then
                  match r with
                  | String "+" r' => exp_digits 1%Z r'
                  | String "-" r' => exp_digits (-1)%Z r'
                  | _ => exp_digits 1%Z r
                  end
                else Some (0%Z, s3)
            | EmptyString => Some (0%Z, s3)
            end in
          match exp_part with
          | None => None
          | Some (e, s4) =>
              Some (decimal (if neg then (- m)%Z else m) (e - scale), s4)
          end
      end
  end.

(** Defining a property of an object: a repeated name keeps its first
    position and takes the last value. *)
Fixpoint set_field (k : string) (v : value) (fields : list (string * value))
  : list (string * value) :=
  match fields with
  | [] => [(k, v)]
  | (k', v') :: tl =>
      if String.eqb k k' then (k', v) :: tl else (k', v') :: set_field k v tl
  end.

Fixpoint parse_value (fuel : nat) (s : string) : option (value * string) :=
  match fuel with
  | O => None
  | S n =>
      match skip_ws s with
      | EmptyString => None
      | String c rest as s0 =>
          if Ascii.eqb c DQUOTE then
            match parse_chars rest with
            | Some (str, out) => Some (JString str, out)
            | None => None
            end
          else if Ascii.eqb c "[" then
            match skip_ws rest with
            | String "]" out => Some (JArray [], out)
            | _ =>
                match parse_elements n rest with
                | Some (items, out) => Some (JArray items, out)
                | None => None
                end
            end
          else if Ascii.eqb c "{" then
            match skip_ws rest with
            | String "}" out => Some (JObject [], out)
            | _ =>
                match parse_members n [] rest with
                | Some (fields, out) => Some (JObject fields, out)
                | None => None
                end
            end
          else
            match strip_prefix "null" s0, strip_prefix "true" s0,
                  strip_prefix "false" s0 with
            | Some out, _, _ => Some (JNull, out)
            | _, Some out, _ => Some (JBool true, out)
            | _, _, Some out => Some (JBool false, out)
            | None, None, None =>
                match parse_number s0 with
                | Some (q, out) => Some (JNumber q, out)
                | None => None
                end
            end
      end
  end

with parse_elements (fuel : nat) (s : string) : option (list value * string) :=
  match fuel with
  | O => None
  | S n =>
      match parse_value n s with
      | None => None
      | Some (v, out) =>
          match skip_ws out with
          | String "," out' =>
              match parse_elements n out' with
              | Some (vs, out'') => Some (v :: vs, out'')
              | None => None
              end
          | String "]" out' => Some ([v], out')
          | _ => None
          end
      end
  end

with parse_members (fuel : nat) (acc : list (string * value)) (s : string)
  : option (list (string * value) * string) :=
  match fuel with
  | O => None
  | S n =>
      match skip_ws s with
      | String c rest =>
          if Ascii.eqb c DQUOTE then
            match parse_chars rest with
            | None => None
            | Some (k, out) =>
                match skip_ws out with
                | String ":" out' =>
                    match parse_value n out' with
                    | None => None
                    | Some (v, out'') =>
                        let acc' := set_field k v acc in
                        match skip_ws out'' with
                        | String "," out3 => parse_members n acc' out3
                        | String "}" out3 => Some (acc', out3)
                        | _ => None
                        end
                    end
                | _ => None
                end
            end
          else None
      | EmptyString => None
      end
  end.

(** [JSON.parse(text)]: the value, or [None] where the host throws a
    [SyntaxError].  A chain of nested calls spends at most two units of
    fuel for each character it has read, so the fuel never runs out. *)
Definition parse (text : string) : option value :=
  match parse_value (S (2 * String.length text)) text with
  | Some (v, out) =>
      match skip_ws out with
      | EmptyString => Some v
      | String _ _ => None
      end
  | None => None
  end.

(** Writes a JSON text with ['] for the double quote. *)
Fixpoint quoted (s : string) : string :=
  match s with
  | EmptyString => EmptyString
  | String c s' => String (if Ascii.eqb c "'" then DQUOTE else c) (quoted s')
  end.

End Json.

(* ================================================================== *)
(** ** Values exchanged with the remote endpoint (@google/genai) *)

(** A thrown value: an [Error] whose [message], when present, is a string. *)
Record JsError : Type := mkError {
  name : string;
  message : option string
}.

(** [new Error(msg)] *)
Definition Error (msg : string) : JsError :=
  {| name := "Error"; message := Some msg |}.

(** What [JSON.parse] throws; the wording of the message is the host's. *)
Definition SyntaxError : JsError :=
  {| name := "SyntaxError"; message := Some "Unexpected token in JSON" |}.

Inductive Part : Type :=
| TextPart (text : string)
| InlineData (data mimeType : string).

Inductive Tool : Type :=
| googleSearch.

(** [responseSchema] *)
#[warnings="-register-all"]
Inductive Schema : Type :=
| TypeNUMBER
| TypeSTRING
| TypeARRAY (items : Schema)
| TypeOBJECT (properties : list (string * Schema)) (required : list string).

Record Config : Type := mkConfig {
  systemInstruction : option string;
  tools : option (list Tool);
  thinkingBudget : option Z;
  responseMimeType : option string;
  responseSchema : option Schema
}.

(** The [params] handed to the fallback helper: a request without its
    model. *)
Record Params : Type := mkParams {
  contents : list Part;
  config : Config
}.

(** [{ ...params, model }] *)
Record Request : Type := mkRequest {
  model : string;
  payload : Params
}.

Record Web : Type := mkWeb {
  web_title : option string;
  web_uri : option string
}.

Record GroundingChunk : Type := mkChunk {
  web : option Web
}.

Record Candidate : Type := mkCandidate {
  groundingChunks : option (list GroundingChunk)
}.

Record Response : Type := mkResponse {
  text : option string;
  candidates : list Candidate
}.

Inductive AspectRatio : Type :=
| Landscape16x9
| Portrait9x16.

Record VideoConfig : Type := mkVideoConfig {
  numberOfVideos : Z;
  resolution : string;
  aspectRatio : AspectRatio
}.

Record Image : Type := mkImage {
  imageBytes : string;
  image_mimeType : string
}.

Record VideoParams : Type := mkVideoParams {
  video_model : string;
  video_prompt : string;
  video_config : VideoConfig;
  image : option Image
}.

Record Video : Type := mkVideo {
  uri : option string
}.

Record GeneratedVideo : Type := mkGeneratedVideo {
  video : option Video
}.

Record VideosResponse : Type := mkVideosResponse {
  generatedVideos : option (list GeneratedVideo)
}.

(** A long-running operation; [done] may be missing while it runs. *)
Record Operation : Type := mkOperation {
  op_name : string;
  done : option bool;
  response : option VideosResponse
}.

(* ================================================================== *)
(** ** Observable events and asynchronous computations *)

Inductive Event : Type :=
| GenerateContent (req : Request)
| GenerateVideos (params : VideoParams)
| GetVideosOperation (operation : Operation)
| SetTimeout (ms : Z)
| ConsoleWarn (msg : string)
| ConsoleError (label : string) (e : JsError).

Definition Trace : Type := list Event.

(** The remote endpoint.  Every call is answered by a response or by a
    thrown error, and the answer may depend on the events so far. *)
Record Remote : Type := mkRemote {
  models_generateContent : Trace -> Request -> JsError + Response;
  models_generateVideos : Trace -> VideoParams -> JsError + Operation;
  operations_getVideosOperation : Trace -> Operation -> JsError + Operation
}.

(** How a promise stands: fulfilled, rejected, or not settled within the
    loop rounds that were allowed. *)
Inductive Settled (A : Type) : Type :=
| Fulfilled (a : A)
| Rejected (e : JsError)
| Unsettled.

Arguments Fulfilled {A} a.
Arguments Rejected {A} e.
Arguments Unsettled {A}.

Definition Async (A : Type) : Type := Trace -> Settled A * Trace.

Definition ret {A : Type} (a : A) : Async A :=
  fun t => (Fulfilled a, t).

Definition throw {A : Type} (e : JsError) : Async A :=
  fun t => (Rejected e, t).

Definition unsettled {A : Type} : Async A :=
  fun t => (Unsettled, t).

Definition bind {A B : Type} (c : Async A) (k : A -> Async B) : Async B :=
  fun t =>
    match c t with
    | (Fulfilled a, t') => k a t'
    | (Rejected e, t') => (Rejected e, t')
    | (Unsettled, t') => (Unsettled, t')
    end.

(** [try { body } catch (error) { handler }] *)
Definition try_catch {A : Type} (body : Async A) (handler : JsError -> Async A)
  : Async A :=
  fun t =>
    match body t with
    | (Rejected e, t') => handler e t'
    | settled => settled
    end.

Definition emit (ev : Event) : Async unit :=
  fun t => (Fulfilled tt, (t ++ [ev])%list).

(** Awaiting a remote call: the call is recorded, then its answer is
    delivered. *)
Definition remote_call {B : Type} (ev : Event) (answer : JsError + B) : Async B :=
  fun t =>
    match answer with
    | inr b => (Fulfilled b, (t ++ [ev])%list)
    | inl e => (Rejected e, (t ++ [ev])%list)
    end.

Declare Scope async_scope.
Delimit Scope async_scope with async.
Notation "x <- c ;; k" := (bind c (fun x => k))
  (at level 61, c at next level, right associativity) : async_scope.
Notation "c ;;; k" := (bind c (fun _ => k))
  (at level 61, right associativity) : async_scope.
Open Scope async_scope.

Section Client.

Variable ai : Remote.

(** [await ai.models.generateContent(req)] *)
Definition generateContent (req : Request) : Async Response :=
  fun t => remote_call (GenerateContent req) (models_generateContent ai t req) t.

(** [await ai.models.generateVideos(params)] *)
Definition generateVideos (params : VideoParams) : Async Operation :=
  fun t => remote_call (GenerateVideos params) (models_generateVideos ai t params) t.

(** [await ai.operations.getVideosOperation({ operation })] *)
Definition getVideosOperation (operation : Operation) : Async Operation :=
  fun t =>
    remote_call (GetVideosOperation operation)
      (operations_getVideosOperation ai t operation) t.

End Client.

(** [await new Promise(resolve => setTimeout(resolve, ms))] *)
Definition sleep (ms : Z) : Async unit := emit (SetTimeout ms).

(** [error.message?.includes("404") || error.message?.includes("not found")] *)
Definition is_unavailable (error : JsError) : bool :=
  match message error with
  | Some msg => includes "404" msg || includes "not found" msg
  | None => false
  end.

Definition FLASH : string := "gemini-2.5-flash".
Definition PRO_PREVIEW : string := "gemini-3-pro-preview".

(* ================================================================== *)
(** ** The prompt texts of services/geminiService.ts

    The template literals of the source, character for character; [DQ]
    stands for the double quote and an interpolation for its argument. *)

Definition DQ : string := String Json.DQUOTE EmptyString.

Definition facts_prompt (topic : string) : string :=
  "
    Perform a Google Search for the topic: " ++ DQ ++ topic ++ DQ ++ ".
    
    Tasks:
    1. Extract exactly 20 interesting, obscure, or key facts about this topic.
    2. Write a comprehensive summary of the search results to act as " ++ DQ ++ "Context" ++ DQ ++ " for a deep study guide.

    Output Format:
    You must output strictly valid JSON. Do not include markdown formatting (like ```json).
    The JSON structure must be:
    {
      " ++ DQ ++ "facts" ++ DQ ++ ": [" ++ DQ ++ "Fact 1" ++ DQ ++ ", " ++ DQ ++ "Fact 2" ++ DQ ++ ", ...],
      " ++ DQ ++ "searchContext" ++ DQ ++ ": " ++ DQ ++ "Detailed summary..." ++ DQ ++ "
    }
    ".

Definition analyze_prompt_role : string :=
  "
  You are " ++ DQ ++ "StudySim AI" ++ DQ ++ " - Phase 1: Background Processor & Architect.
  
  Your goal is to perform a DEEP, SILENT BACKGROUND ANALYSIS to create a robust SPECIFICATION for a learning module and a 'Real-Life Simulator'.
  ".

Definition analyze_prompt_context (searchContext : string) : string :=
  "
      ### CONTEXT FROM WEB SEARCH
      Use the following verified context as your primary source of truth:
      " ++ DQ ++ searchContext ++ DQ ++ "
      
      (Do not perform a new Google Search unless absolutely necessary for specific missing details).
      ".

Definition analyze_prompt_requirements : string :=
  "
  ### BACKGROUND PROCESSING REQUIREMENTS (Execute Silently)
  1. **Autonomous Concept Analysis**:
     - Evaluate the user's idea for flaws, missing logic, or weak structure.
     - Identify opportunities for improvement immediately.
  2. **Visual System Quality Check**:
     - Verify typography, UI elements, and color themes.
     - If they fail clarity/aesthetics, AUTOMATICALLY REDESIGN them to meet professional standards.
  3. **Inspiration Retrieval**:
     - If context is missing, use Google Search to find reference patterns.
  4. **Technical Planning (CRITICAL)**:
     - Define the simulator's logic for HTML5/Canvas/CSS implementation.
     - **MANDATORY INTERACTIVITY**: You MUST identify at least 3 adjustable variables (e.g., Gravity, Speed, Temperature, Angle).
     - **UI CONTROLS**: Define specific HTML input controls (Range Sliders, Toggle Switches, Reset Buttons) that the user will use to manipulate these variables in real-time.
     - The simulation MUST be designed to use `requestAnimationFrame` and update immediately when controls change.
     - Emphasize CSS for high-quality UI and animations.
  5. **Visual Excellence Enforcement**:
     - Refine color psychology (e.g., " ++ DQ ++ "Calming Teal" ++ DQ ++ " for focus, " ++ DQ ++ "Energetic Orange" ++ DQ ++ " for gamification).
  6. **Internal Iteration**:
     - Review your own plan twice before outputting.
  
  ### OUTPUT FORMAT (The Stable Foundation)
  Return a structured Markdown plan with these headers:
  
  ## 🧐 Analysis & Context
  (Overview of the topic, addressing any identified flaws or improvements)
  
  ## 🎮 Simulator Concept
  (Technical specification: List of Interactive Controls (Sliders/Buttons), Physics Logic, Interaction Flow, Visual feedback. Be specific about the HTML5 implementation.)
  
  ## 🎨 Visual Identity
  (Defined Typography, Specific Hex Colors, Layout Structure, and " ++ DQ ++ "Vibe" ++ DQ ++ ". This is the blueprint for the code.)
  
  ## 🔍 Verified Sources
  (List credible sources found during research)
  ".

Definition simulator_prompt : string :=
  "
  You are " ++ DQ ++ "StudySim AI" ++ DQ ++ " - Phase 3: Simulator Architect.
  
  You have received a specific request to build an Interactive Simulator.
  A FULL RESEARCH BUNDLE (Plan + Context + Notes) is attached to this request.
  
  ### INSTRUCTIONS
  1. **Generate The Simulator**:
     - Write the SINGLE-FILE HTML5 application (HTML+CSS+JS).
     - **Constraint**: IT MUST MATCH the " ++ DQ ++ "Visual Identity" ++ DQ ++ " and " ++ DQ ++ "Simulator Concept" ++ DQ ++ " from the attached RESEARCH BUNDLE EXACTLY.
     - **Constraint**: Use Tailwind CSS (via CDN) or internal CSS for " ++ DQ ++ "Apple-like" ++ DQ ++ " clean design.
     - **Constraint - LAYOUT & RESPONSIVENESS (CRITICAL)**: 
       - The simulator MUST be fully responsive (Mobile, Tablet, Desktop).
       - Use CSS Grid or Flexbox.
       - **Desktop View**: Sidebar for controls (left or right), Canvas fills the rest.
       - **Mobile View**: Stack controls below the canvas.
       - The Canvas MUST resize dynamically (`window.addEventListener('resize', ...)`) to fill available space.
     - **Constraint - PREVENT OVERLAPPING**:
       - Do NOT use absolute positioning for layout structure, only for specific overlays.
       - Ensure distinct, non-overlapping containers for " ++ DQ ++ "Visualization" ++ DQ ++ " and " ++ DQ ++ "Controls" ++ DQ ++ ".
       - **Reset Logic**: Your initialization code MUST clear any existing canvases/elements (`container.innerHTML = ''`) before drawing to prevent elements stacking on top of each other when resized or reset.
     - **Context Awareness**: Use the concepts explained in the " ++ DQ ++ "Smart Notes" ++ DQ ++ " to inform the simulation logic and labels.
     - **CRITICAL REQUIREMENT**: You MUST implement a **" ++ DQ ++ "Control Panel" ++ DQ ++ "** with actual `<input type=" ++ DQ ++ "range" ++ DQ ++ ">` sliders and `<button>` elements.
     - **CRITICAL REQUIREMENT**: Hook these inputs to JavaScript variables so the simulation updates in **REAL-TIME**.
     - **NEW FEATURE**: Add a **" ++ DQ ++ "Snapshot" ++ DQ ++ "** button in the control panel.
     - **TOOLTIPS & EXPLANATIONS (REQUIRED)**:
       - Every interactive control (input, button) MUST have a `title` attribute explaining its function (e.g. `title=" ++ DQ ++ "Controls the gravitational constant" ++ DQ ++ "`).
       - Add a small text label or " ++ DQ ++ "info" ++ DQ ++ " icon next to complex variables that reveals a brief explanation on hover.
       - The simulator MUST be self-explanatory.
     - **ANIMATION & VISUAL FEEDBACK (HIGH PRIORITY)**:
       - **Smoothness**: Use `requestAnimationFrame` for the main loop. Implement linear interpolation (Lerp) for smooth movement of objects to prevent jitter.
       - **UI Polish**: Use custom CSS for sliders (e.g., rounded tracks, larger thumbs). Add hover states and active states (scale/color shift) to all interactive elements.
       - **Glassmorphism**: Use semi-transparent backgrounds with backdrop-blur for the control panel or overlay elements.
       - **Transitions**: Use CSS transitions (`transition: all 0.3s ease`) for any DOM element changes.
       - **Dynamic Feedback**: Display current values next to sliders. Add tooltips or small text indicators when values change.
     - WRAP CODE in ```html```.
  ".

Definition simulator_plan_part (approvedPlan : string) : string :=
  "ATTACHED RESEARCH CONTEXT (Architecture Plan):
" ++ approvedPlan.

Definition simulator_notes_part (smartNotes : string) : string :=
  "ATTACHED CONTENT (Smart Notes):
" ++ smartNotes.

Definition quiz_prompt (context : string) : string :=
  "
    Based on the following study notes, generate 5 multiple-choice questions (MCQs).
    The questions should test conceptual understanding and critical thinking.

    STUDY CONTENT:
    " ++ slice0 10000%N context ++ "
    ".

(* ================================================================== *)
(** ** services/geminiService.ts *)

Section Service.

Variable ai : Remote.

(** Helper for Fallback Logic (Pro -> Flash) *)
Definition generateContentWithFallback (model : string) (params : Params)
  : Async Response :=
  try_catch
    (generateContent ai {| model := model; payload := params |})
    (fun error =>
       if is_unavailable error then
         emit (ConsoleWarn ("Model " ++ model ++ " failed, falling back to gemini-2.5-flash")) ;;;
         generateContent ai {| model := FLASH; payload := params |}
       else throw error).

(** What [getInterestingFacts] returns when the search fails. *)
Definition DEFAULT_FACTS : Json.value :=
  Json.JObject
    [("facts",
      Json.JArray [Json.JString "Learning is a journey.";
                   Json.JString "Stay curious.";
                   Json.JString "Knowledge is power."]);
     ("searchContext", Json.JString "")].

(** [JSON.parse(text)] inside an async function. *)
Definition JSON_parse (text : string) : Async Json.value :=
  match Json.parse text with
  | Some v => ret v
  | None => throw SyntaxError
  end.

(** [a || b] on the results of two [match] calls. *)
Definition or_match (a b : option string) : option string :=
  match a with
  | Some group => Some group
  | None => b
  end.

(** Lines 61-67: the response text, cleaned of a Markdown wrapper. *)
Definition cleaned (response_text : option string) : string :=
  let text := truthy_or response_text "{}" in
  let match_ := or_match (match_fence "```json" text) (match_fence FENCE text) in
  match match_ with
  | Some group => group
  | None => text
  end.

Definition facts_request (topic : string) : Request :=
  {| model := FLASH;
     payload :=
       {| contents := [TextPart (facts_prompt topic)];
          config :=
            {| systemInstruction := None; tools := Some [googleSearch];
               thinkingBudget := None; responseMimeType := None;
               responseSchema := None |} |} |}.

(** OPTIMIZED FACT RETRIEVAL (Single Search Strategy).  The result is cast
    to [TopicFacts] without a check, so it is whatever value was parsed. *)
Definition getInterestingFacts (topic : string) : Async Json.value :=
  try_catch
    (response <- generateContent ai (facts_request topic) ;;
     JSON_parse (cleaned (text response)))
    (fun e =>
       emit (ConsoleError "Fact Fetch Error" e) ;;;
       ret DEFAULT_FACTS).

Record Source : Type := mkSource {
  title : option string;
  source_uri : string
}.

Record StudyPlan : Type := mkStudyPlan {
  markdownPlan : string;
  sources : list Source
}.

(** Lines 87-139: the system prompt, with the context block when
    [searchContext] is truthy. *)
Definition analyze_system_prompt (searchContext : option string) : string :=
  let systemPrompt := analyze_prompt_role in
  let systemPrompt :=
    match searchContext with
    | Some (String c s) => systemPrompt ++ analyze_prompt_context (String c s)
    | _ => systemPrompt
    end in
  systemPrompt ++ analyze_prompt_requirements.

(** Lines 141-157 *)
Definition analyze_parts (input : string) (mediaData : option (string * string))
  (isVideoAnalysis : bool) : list Part :=
  let parts :=
    match mediaData with
    | Some (data, mimeType) =>
        [InlineData data mimeType;
         TextPart (if isVideoAnalysis
                   then "Analyze this video context as the primary source material."
                   else "Analyze this image as the primary source material.")]
    | None => []
    end in
  (parts ++ [TextPart (truthy_or (Some input) "Analyze the provided media.")])%list.

(** Line 162: [searchContext ? [] : [{ googleSearch: {} }]] *)
Definition analyze_tools (searchContext : option string) : list Tool :=
  if truthy searchContext then [] else [googleSearch].

Definition analyze_params (input : string) (mediaData : option (string * string))
  (isVideoAnalysis : bool) (searchContext : option string) : Params :=
  {| contents := analyze_parts input mediaData isVideoAnalysis;
     config :=
       {| systemInstruction := Some (analyze_system_prompt searchContext);
          tools := Some (analyze_tools searchContext);
          thinkingBudget := Some 16384%Z;
          responseMimeType := None; responseSchema := None |} |}.

(** [chunks.filter(c => c.web?.uri).map(c => ({ title, uri }))] *)
Fixpoint sources_of (chunks : list GroundingChunk) : list Source :=
  match chunks with
  | [] => []
  | c :: tl =>
      match web c with
      | Some w =>
          match web_uri w with
          | Some (String a u) =>
              {| title := web_title w; source_uri := String a u |} :: sources_of tl
          | _ => sources_of tl
          end
      | None => sources_of tl
      end
  end.

(** [response.candidates?.[0]?.groundingMetadata?.groundingChunks || []] *)
Definition chunks_of (response : Response) : list GroundingChunk :=
  match candidates response with
  | c :: _ =>
      match groundingChunks c with
      | Some chunks => chunks
      | None => []
      end
  | [] => []
  end.

(** Step 1: Analyze & Verify *)
Definition analyzeStudyTopic (input : string) (mediaData : option (string * string))
  (isVideoAnalysis : bool) (searchContext : option string) : Async StudyPlan :=
  try_catch
    (response <- generateContentWithFallback PRO_PREVIEW
                   (analyze_params input mediaData isVideoAnalysis searchContext) ;;
     ret {| markdownPlan := truthy_or (text response) "No plan generated.";
            sources := sources_of (chunks_of response) |})
    (fun error =>
       emit (ConsoleError "Study Analysis Error:" error) ;;;
       throw error).

Definition simulator_params (approvedPlan smartNotes : string) : Params :=
  {| contents :=
       [TextPart (simulator_plan_part approvedPlan);
        TextPart (simulator_notes_part smartNotes);
        TextPart "Proceed to generate the Interactive Simulator HTML5 code based on the attached research."];
     config :=
       {| systemInstruction := Some simulator_prompt; tools := None;
          thinkingBudget := Some 32768%Z;
          responseMimeType := None; responseSchema := None |} |}.

(** Lines 299-301: the content of the html fence, or the empty string. *)
Definition simulator_code (response_text : option string) : string :=
  let text := truthy_or response_text "" in
  match match_fence "```html" text with
  | Some group => group
  | None => ""
  end.

(** Step 3: Generate Simulator (On Demand) *)
Definition generateStudySimulator (approvedPlan smartNotes : string) : Async string :=
  try_catch
    (response <- generateContentWithFallback PRO_PREVIEW
                   (simulator_params approvedPlan smartNotes) ;;
     ret (simulator_code (text response)))
    (fun error =>
       emit (ConsoleError "Simulator Gen Error:" error) ;;;
       throw error).

Definition quiz_schema : Schema :=
  TypeARRAY
    (TypeOBJECT
       [("id", TypeNUMBER); ("question", TypeSTRING);
        ("options", TypeARRAY TypeSTRING); ("correctAnswer", TypeNUMBER);
        ("explanation", TypeSTRING)]
       ["id"; "question"; "options"; "correctAnswer"; "explanation"]).

Definition quiz_request (context : string) : Request :=
  {| model := FLASH;
     payload :=
       {| contents := [TextPart (quiz_prompt context)];
          config :=
            {| systemInstruction := None; tools := None; thinkingBudget := None;
               responseMimeType := Some "application/json";
               responseSchema := Some quiz_schema |} |} |}.

(** Feature 3: Instant Quiz Generator.  The parsed value is returned as
    [QuizQuestion[]] without a check. *)
Definition generateQuiz (context : string) : Async Json.value :=
  try_catch
    (response <- generateContent ai (quiz_request context) ;;
     let jsonString := truthy_or (text response) "[]" in
     JSON_parse jsonString)
    (fun e =>
       emit (ConsoleError "Quiz Gen Error" e) ;;;
       ret (Json.JArray [])).

(** Lines 489-506 *)
Definition veo_params (prompt : string) (inputImageBase64 inputImageMime : option string)
  (aspectRatio : AspectRatio) : VideoParams :=
  {| video_model := "veo-3.1-fast-generate-preview";
     video_prompt := prompt;
     video_config :=
       {| numberOfVideos := 1; resolution := "1080p"; aspectRatio := aspectRatio |};
     image :=
       match inputImageBase64, inputImageMime with
       | Some (String a b), Some (String c d) =>
           Some {| imageBytes := String a b; image_mimeType := String c d |}
       | _, _ => None
       end |}.

(** [operation.done], read as a condition. *)
Definition is_done (operation : Operation) : bool :=
  match done operation with
  | Some b => b
  | None => false
  end.

(** Lines 511-514: [while (!operation.done) { sleep 5s; re-fetch }].
    [rounds] bounds the number of rounds that are followed; the source
    has no bound, and a loop that needs more rounds is [Unsettled]. *)
Fixpoint poll (rounds : nat) (operation : Operation) : Async Operation :=
  if is_done operation then ret operation
  else
    match rounds with
    | O => unsettled
    | S n =>
        sleep 5000 ;;;
        operation' <- getVideosOperation ai operation ;;
        poll n operation'
    end.

(** [operation.response?.generatedVideos?.[0]?.video?.uri] *)
Definition result_uri (operation : Operation) : option string :=
  match response operation with
  | Some r =>
      match generatedVideos r with
      | Some (v :: _) =>
          match video v with
          | Some vid => uri vid
          | None => None
          end
      | _ => None
      end
  | None => None
  end.

Definition NO_URI : JsError := Error "Video generation failed or no URI returned".

Definition VEO_UNAVAILABLE : JsError :=
  Error "Veo model not available with current API Key. This feature requires a specific paid tier or region.".

(** Lines 509-519: the body of the [try]. *)
Definition veo_body (rounds : nat) (params : VideoParams) : Async string :=
  operation <- generateVideos ai params ;;
  operation <- poll rounds operation ;;
  match result_uri operation with
  | Some (String c u) => ret (String c u)
  | _ => throw NO_URI
  end.

(** Veo Video Generation *)
Definition generateVeoVideo (rounds : nat) (prompt : string)
  (inputImageBase64 inputImageMime : option string) (aspectRatio : AspectRatio)
  : Async string :=
  try_catch
    (veo_body rounds (veo_params prompt inputImageBase64 inputImageMime aspectRatio))
    (fun error =>
       if is_unavailable error then throw VEO_UNAVAILABLE
       else throw error).

End Service.

(* ================================================================== *)
(** ** The extraction order as the specification words it

    Used only to compare with [cleaned]: (a) a fence labelled [json],
    (b) otherwise a fence without a label, (c) otherwise the whole text.
    The label of a fence is what follows its opening backticks up to the
    first white space. *)

Module Claimed.

Fixpoint label_of (s : string) : string :=
  match s with
  | String c s' => if Json.is_ws c then EmptyString else String c (label_of s')
  | EmptyString => EmptyString
  end.

Fixpoint after_label (s : string) : string :=
  match s with
  | String c s' => if Json.is_ws c then s else after_label s'
  | EmptyString => EmptyString
  end.

(** The content of the first fence of [s] that carries the label [tag]. *)
Fixpoint fence_labelled (tag s : string) : option string :=
  let here :=
    match strip_prefix FENCE s with
    | Some rest =>
        if String.eqb (label_of rest) tag
        then option_map fst (split_first FENCE (after_label rest))
        else None
    | None => None
    end in
  match here with
  | Some inner => Some inner
  | None =>
      match s with
      | EmptyString => None
      | String _ s' => fence_labelled tag s'
      end
  end.

Definition payload (raw : string) : string :=
  match fence_labelled "json" raw with
  | Some inner => inner
  | None =>
      match fence_labelled "" raw with
      | Some inner => inner
      | None => raw
      end
  end.

(** The simulator source as the specification words it: the content of the
    first fence labelled [html], and nothing when there is none. *)
Definition simulator_source (raw : string) : string :=
  match fence_labelled "html" raw with
  | Some inner => inner
  | None => ""
  end.

End Claimed.

(* ================================================================== *)
(** ** Notions used to state the properties *)

(** [pat] occurs in [s]. *)
Definition contains (pat s : string) : Prop :=
  exists p q, s = p ++ pat ++ q.

(** [pat] occurs in [s] right after [before], and nowhere earlier. *)
Definition first_occurrence (pat s before rest : string) : Prop :=
  s = before ++ pat ++ rest /\
  forall p q, s = p ++ pat ++ q -> String.length before <= String.length p.

(** [s] holds a fence opened by [opening]. *)
Definition has_fence (opening s : string) : Prop :=
  exists pre inner post, s = pre ++ opening ++ inner ++ FENCE ++ post.

(** The error signal that marks a capability as unavailable. *)
Definition capability_unavailable (e : JsError) : Prop :=
  exists msg, message e = Some msg /\ (contains "404" msg \/ contains "not found" msg).

(** The events of polling the operations [pending], one round each. *)
Definition poll_events (pending : list Operation) : list Event :=
  flat_map (fun o => [SetTimeout 5000; GetVideosOperation o]) pending.

(** From trace [t] on, the endpoint answers the poll of each operation of
    [pending] with the next one, and the poll of the last one with [last]. *)
Fixpoint polled (ai : Remote) (t : Trace) (pending : list Operation)
  (last : JsError + Operation) : Prop :=
  match pending with
  | [] => True
  | o :: tl =>
      operations_getVideosOperation ai (t ++ [SetTimeout 5000])%list o
      = match tl with
        | [] => last
        | o' :: _ => inr o'
        end
      /\ polled ai (t ++ [SetTimeout 5000; GetVideosOperation o])%list tl last
  end.

(** How the body of [generateVeoVideo] ends on a completed operation. *)
Definition locator_or_error (operation : Operation) : Settled string :=
  match result_uri operation with
  | Some (String c u) => Fulfilled (String c u)
  | _ => Rejected NO_URI
  end.

Module Quiz.

Fixpoint field (key : string) (fields : list (string * Json.value)) : option Json.value :=
  match fields with
  | [] => None
  | (k, v) :: tl => if String.eqb k key then Some v else field key tl
  end.

(** [correctAnswer] is an integer that indexes an element of [options]. *)
Definition index_valid (item : Json.value) : bool :=
  match item with
  | Json.JObject fields =>
      match field "options" fields, field "correctAnswer" fields with
      | Some (Json.JArray options), Some (Json.JNumber q) =>
          Pos.eqb (Qden q) 1 && (0 <=? Qnum q)%Z
          && (Qnum q <? Z.of_nat (List.length options))%Z
      | _, _ => false
      end
  | _ => false
  end.


End Quiz.

(* ================================================================== *)
(** ** Sample endpoints *)

Module Sample.

Definition no_content : Trace -> Request -> JsError + Response :=
  fun _ _ => inl (Error "generateContent is not served").

Definition no_videos : Trace -> VideoParams -> JsError + Operation :=
  fun _ _ => inl (Error "generateVideos is not served").

Definition no_operations : Trace -> Operation -> JsError + Operation :=
  fun _ _ => inl (Error "getVideosOperation is not served").

(** Every generation call is answered with the text [txt]. *)
Definition answering (txt : option string) : Remote :=
  {| models_generateContent := fun _ _ => inr {| text := txt; candidates := [] |};
     models_generateVideos := no_videos;
     operations_getVideosOperation := no_operations |}.

(** Every generation call throws [e]. *)
Definition failing (e : JsError) : Remote :=
  {| models_generateContent := fun _ _ => inl e;
     models_generateVideos := no_videos;
     operations_getVideosOperation := no_operations |}.

(** Only the flash model is served: it answers [flash]; the others throw [e]. *)
Definition flash_only (e : JsError) (flash : JsError + Response) : Remote :=
  {| models_generateContent :=
       fun _ req => if String.eqb (model req) FLASH then flash else inl e;
     models_generateVideos := no_videos;
     operations_getVideosOperation := no_operations |}.

Definition polls_so_far (t : Trace) : nat :=
  List.length
    (filter (fun ev => match ev with GetVideosOperation _ => true | _ => false end) t).

(** A video job: the submission is answered by [submitted], the polls by
    [answers] in turn. *)
Definition video_job (submitted : JsError + Operation)
  (answers : list (JsError + Operation)) : Remote :=
  {| models_generateContent := no_content;
     models_generateVideos := fun _ _ => submitted;
     operations_getVideosOperation :=
       fun t _ => nth (polls_so_far t) answers (inl (Error "no more answers")) |}.

Definition running : Operation :=
  {| op_name := "operations/1"; done := None; response := None |}.

Definition still_running : Operation :=
  {| op_name := "operations/1"; done := Some false; response := None |}.

Definition finished (u : option string) : Operation :=
  {| op_name := "operations/1"; done := Some true;
     response :=
       Some {| generatedVideos := Some [ {| video := Some {| uri := u |} |} ] |} |}.

(** A quiz response that satisfies the response schema: one question, two
    options, and a [correctAnswer] that indexes neither. *)
Definition quiz_text : string :=
  Json.quoted
    "[{'id':1,'question':'q','options':['a','b'],'correctAnswer':7,'explanation':'e'}]".

Definition quiz_item : Json.value :=
  Json.JObject
    [("id", Json.JNumber (inject_Z 1)); ("question", Json.JString "q");
     ("options", Json.JArray [Json.JString "a"; Json.JString "b"]);
     ("correctAnswer", Json.JNumber (inject_Z 7));
     ("explanation", Json.JString "e")].

Definition NEWLINE : string := String (ascii_of_nat 10) EmptyString.

(** A response wrapped in a fence labelled [js]. *)
Definition js_fenced : string := "```js" ++ NEWLINE ++ "[]" ++ NEWLINE ++ "```".

(** A response whose only fence is labelled [html5]. *)
Definition html5_fenced : string :=
  "```html5" ++ NEWLINE ++ "<p>hi</p>" ++ NEWLINE ++ "```".

Definition plain_params : Params :=
  {| contents := [TextPart "hello"];
     config :=
       {| systemInstruction := None; tools := None; thinkingBudget := None;
          responseMimeType := None; responseSchema := None |} |}.

End Sample.

(* ================================================================== *)
(** ** The Authoring phase *)

Definition finalize_prompt : string :=
  "
  You are " ++ DQ ++ "StudySim AI" ++ DQ ++ " - Phase 2: Content Author.
  
  You have received an APPROVED, VERIFIED PLAN. Your job is to generate the HIGH-QUALITY SMART NOTES.
  
  ### INSTRUCTIONS
  1. **Generate Smart Notes**:
     - Based on the plan, write the " ++ DQ ++ "## 🧠 Smart Notes" ++ DQ ++ " section.
     - **CRITICAL FORMATTING RULES**: 
       - **MATH**: You MUST use standard LaTeX format with double dollar signs ($$ ... $$) for block equations and single dollar sign ($ ... $) for inline equations. 
       - **DEFINITIONS**: You MUST use **Blockquotes** (`> `) for key text definitions and important takeaways only.
     - Use bolding for emphasis, but do not use list markers (" ++ "*) or hash headers (#) inside the text flow. Use standard Markdown headers for sections.
     - Include a " ++ DQ ++ "Key Concepts" ++ DQ ++ " summary at the top.
     - Structure with clear headings (H1, H2, H3).
     - Ensure the content is detailed, accurate, and educational.
     - DO NOT generate any HTML code or Simulator code in this step.
  ".

Definition finalize_topic_part (originalInput : string) : string :=
  "Original Topic: " ++ originalInput.

Definition finalize_plan_part (approvedPlan : string) : string :=
  "Approved Architecture Plan:
" ++ approvedPlan.

Record StudyResult : Type := mkStudyResult {
  markdown : string;
  simulatorCode : string
}.

Definition finalize_params (approvedPlan originalInput : string) : Params :=
  {| contents :=
       [TextPart (finalize_topic_part originalInput);
        TextPart (finalize_plan_part approvedPlan);
        TextPart "Proceed to generate the Smart Notes."];
     config :=
       {| systemInstruction := Some finalize_prompt; tools := None;
          thinkingBudget := Some 16384%Z;
          responseMimeType := None; responseSchema := None |} |}.

(** Step 2: Finalize & Build (Code Generation - Notes Only) *)
Definition finalizeStudyPackage (ai : Remote) (approvedPlan originalInput : string)
  : Async StudyResult :=
  try_catch
    (response <- generateContentWithFallback ai PRO_PREVIEW
                   (finalize_params approvedPlan originalInput) ;;
     ret {| markdown := truthy_or (text response) "No content generated.";
            simulatorCode := "" |})
    (fun error =>
       emit (ConsoleError "Study Build Error:" error) ;;;
       throw error).

(** No backtick occurs in [s]. *)
Fixpoint no_backtick (s : string) : bool :=
  match s with
  | EmptyString => true
  | String c s' => negb (Ascii.eqb c "`") && no_backtick s'
  end.

(* ================================================================== *)
(** ** The study screen (component [StudyArchitect])

    The expressions of the component that prepare what the service is
    called with and that read back what it returned. *)

Module StudyArchitect.

Definition LF : string := String (ascii_of_nat 10) EmptyString.

(** A selected file: its name, its MIME type, and the base64 text that
    [readAsDataURL] yields after the comma. *)
Record File : Type := mkFile {
  file_name : string;
  file_type : string;
  file_base64 : string
}.

(** [s.startsWith(p)] *)
Definition starts_with (p s : string) : bool :=
  match strip_prefix p s with
  | Some _ => true
  | None => false
  end.


(** [files.find(f => f.type.startsWith('image/') || f.type.startsWith('video/'))] *)
Definition mediaFile (files : list File) : option File :=
  find (fun f => starts_with "image/" (file_type f)
                 || starts_with "video/" (file_type f)) files.

Definition mediaData (files : list File) : option (string * string) :=
  match mediaFile files with
  | Some f => Some (file_base64 f, file_type f)
  | None => None
  end.


(** [inputText + (files.length > 0 ? `\n\n[Attached Files: ${names.join(', ')}]` : "")] *)
Definition combinedInput (inputText : string) (files : list File) : string :=
  inputText ++
  match files with
  | [] => ""
  | _ :: _ =>
      LF ++ LF ++ "[Attached Files: "
      ++ String.concat ", " (map file_name files) ++ "]"
  end.


(** [extractSimulatorCode] *)
Definition extractSimulatorCode (text : string) : option string :=
  match_fence "```html" text.

(** The component's [simulatorCode]:
    [result?.simulatorCode || (result ? extractSimulatorCode(result.markdown) : null)] *)
Definition shownSimulatorCode (result : option StudyResult) : option string :=
  match result with
  | Some r =>
      match simulatorCode r with
      | String c s => Some (String c s)
      | EmptyString => extractSimulatorCode (markdown r)
      end
  | None => None
  end.

(** [s.replace(/OPENING([\s\S]*?)```/, '')]: the first match is removed. *)
Fixpoint remove_fence (opening s : string) : string :=
  let here :=
    match strip_prefix opening s with
    | Some rest => option_map snd (split_first FENCE rest)
    | None => None
    end in
  match here with
  | Some after => after
  | None =>
      match s with
      | EmptyString => EmptyString
      | String c s' => String c (remove_fence opening s')
      end
  end.

(** [result ? result.markdown.replace(/```html([\s\S]*?)```/, '') : ''] *)
Definition displayText (result : option StudyResult) : string :=
  match result with
  | Some r => remove_fence "```html" (markdown r)
  | None => ""
  end.

(** A code unit that [/[^a-z0-9]/gi] leaves alone. *)
Definition is_alnum (c : ascii) : bool :=
  let n := nat_of_ascii c in
  (((48 <=? n) && (n <=? 57)) || ((65 <=? n) && (n <=? 90))
   || ((97 <=? n) && (n <=? 122)))%nat.

(** What the replacement makes of one code unit. *)
Definition underscore_unit (u : N) : ascii :=
  if (u <? 128)%N && is_alnum (ascii_of_N u) then ascii_of_N u else "_"%char.

(** [s.replace(/[^a-z0-9]/gi, '_')]: every code unit that is not an ASCII
    letter or digit becomes one underscore. *)
Definition underscored (s : string) : string :=
  string_of_list_ascii (map underscore_unit (code_units s)).

(** [(inputText || 'Notes').slice(0, 20).replace(/[^a-z0-9]/gi, '_')] *)
Definition export_stem (inputText : string) : string :=
  underscored (slice0 20 (truthy_or (Some inputText) "Notes")).

Definition pdf_filename (inputText : string) : string :=
  "StudySim_" ++ export_stem inputText ++ ".pdf".

Definition doc_filename (inputText : string) : string :=
  "StudySim_" ++ export_stem inputText ++ ".doc".

End StudyArchitect.

(* ================================================================== *)
(** ** The calls with other payloads: chat, audio and images

    [queryDeepDive], [transcribeAudio], [generateImage] and [editImage]
    send requests whose contents are role-tagged turns or whose config
    holds an image configuration, and read the parts of the first
    candidate.  They are embedded over requests and responses of that
    shape, with the fallback helper taken at this payload type (its
    [params] are [any] in the source). *)

Module Sdk.

Inductive ImageSize : Type :=
| Size1K
| Size2K
| Size4K.

Inductive ImageAspect : Type :=
| Ratio1x1
| Ratio3x4
| Ratio4x3
| Ratio9x16
| Ratio16x9.

Record ImageConfig : Type := mkImageConfig {
  aspectRatio : ImageAspect;
  imageSize : option ImageSize
}.

Record Turn : Type := mkTurn {
  role : string;
  parts : list Part
}.

(** [contents]: one content given by its parts, or a list of turns. *)
Inductive Contents : Type :=
| Content (content_parts : list Part)
| Turns (turns : list Turn).

Record Config : Type := mkConfig {
  systemInstruction : option string;
  imageConfig : option ImageConfig
}.

Record Params : Type := mkParams {
  contents : Contents;
  config : option Config
}.

Record Request : Type := mkRequest {
  model : string;
  payload : Params
}.

Record Candidate : Type := mkCandidate {
  candidate_parts : option (list Part)
}.

Record Response : Type := mkResponse {
  text : option string;
  candidates : option (list Candidate)
}.

Inductive Event : Type :=
| GenerateContent (req : Request)
| ConsoleWarn (msg : string).

Definition Trace : Type := list Event.

Record Remote : Type := mkRemote {
  models_generateContent : Trace -> Request -> JsError + Response
}.

Definition Async (A : Type) : Type := Trace -> Settled A * Trace.

Definition ret {A : Type} (a : A) : Async A :=
  fun t => (Fulfilled a, t).

Definition throw {A : Type} (e : JsError) : Async A :=
  fun t => (Rejected e, t).

Definition bind {A B : Type} (c : Async A) (k : A -> Async B) : Async B :=
  fun t =>
    match c t with
    | (Fulfilled a, t') => k a t'
    | (Rejected e, t') => (Rejected e, t')
    | (Unsettled, t') => (Unsettled, t')
    end.

Definition try_catch {A : Type} (body : Async A) (handler : JsError -> Async A)
  : Async A :=
  fun t =>
    match body t with
    | (Rejected e, t') => handler e t'
    | settled => settled
    end.

Definition emit (ev : Event) : Async unit :=
  fun t => (Fulfilled tt, (t ++ [ev])%list).

(** [await ai.models.generateContent(req)] *)
Definition generateContent (ai : Remote) (req : Request) : Async Response :=
  fun t =>
    match models_generateContent ai t req with
    | inr r => (Fulfilled r, (t ++ [GenerateContent req])%list)
    | inl e => (Rejected e, (t ++ [GenerateContent req])%list)
    end.

(** Helper for Fallback Logic (Pro -> Flash), at this payload type. *)
Definition generateContentWithFallback (ai : Remote) (model : string)
  (params : Params) : Async Response :=
  try_catch
    (generateContent ai {| model := model; payload := params |})
    (fun error =>
       if is_unavailable error then
         bind
           (emit (ConsoleWarn ("Model " ++ model ++ " failed, falling back to gemini-2.5-flash")))
           (fun _ => generateContent ai {| model := FLASH; payload := params |})
       else throw error).

Inductive DeepDiveRole : Type :=
| RoleUser
| RoleAi.

Record DeepDiveMessage : Type := mkMessage {
  msg_id : string;
  msg_role : DeepDiveRole;
  msg_content : string;
  msg_timestamp : Z
}.

Definition deepdive_prompt (context : string) : string :=
  "
    You are an expert tutor in the " ++ DQ ++ "Deep Dive" ++ DQ ++ " workspace.
    Your goal is to clarify doubts, correct misconceptions, and explain concepts deeply based on the provided study notes.
    
    CONTEXT (The Lesson):
    " ++ slice0 5000%N context ++ "

    GUIDELINES:
    - Be encouraging and precise.
    - If the user has a misconception, gently correct it with an example.
    - Use analogies where possible.
    - Keep answers concise unless asked for elaboration.
    - **FORMATTING**: Always use standard LaTeX ($$ ... $$) for formulas. Use Blockquotes (> ) for text definitions.
    ".

(** [{ role: msg.role === 'user' ? 'user' : 'model', parts: [{ text: msg.content }] }] *)
Definition turn_of (msg : DeepDiveMessage) : Turn :=
  {| role := match msg_role msg with
             | RoleUser => "user"
             | RoleAi => "model"
             end;
     parts := [TextPart (msg_content msg)] |}.

(** Convert history to API format *)
Definition deepdive_contents (history : list DeepDiveMessage) (userMessage : string)
  : list Turn :=
  (map turn_of history ++ [{| role := "user"; parts := [TextPart userMessage] |}])%list.

Definition deepdive_request (history : list DeepDiveMessage)
  (context userMessage : string) : Request :=
  {| model := FLASH;
     payload :=
       {| contents := Turns (deepdive_contents history userMessage);
          config := Some {| systemInstruction := Some (deepdive_prompt context);
                            imageConfig := None |} |} |}.

(** Feature 2: Deep Dive Discussion *)
Definition queryDeepDive (ai : Remote) (history : list DeepDiveMessage)
  (context userMessage : string) : Async string :=
  bind (generateContent ai (deepdive_request history context userMessage))
    (fun response =>
       ret (truthy_or (text response) "I couldn't generate a response.")).

Definition transcribe_request (base64Audio mimeType : string) : Request :=
  {| model := FLASH;
     payload :=
       {| contents := Content [InlineData base64Audio mimeType;
                               TextPart "Transcribe this audio accurately."];
          config := None |} |}.

(** Transcription *)
Definition transcribeAudio (ai : Remote) (base64Audio mimeType : string)
  : Async string :=
  bind (generateContent ai (transcribe_request base64Audio mimeType))
    (fun response => ret (truthy_or (text response) "")).

Definition PRO_IMAGE : string := "gemini-3-pro-image-preview".
Definition FLASH_IMAGE : string := "gemini-2.5-flash-image".

(** [size === '2K' || size === '4K'] *)
Definition isPro (size : ImageSize) : bool :=
  match size with
  | Size2K | Size4K => true
  | Size1K => false
  end.

Definition image_model (size : ImageSize) : string :=
  if isPro size then PRO_IMAGE else FLASH_IMAGE.

(** Lines 426-433: [imageSize] is set for the Pro model only. *)
Definition image_config (size : ImageSize) (aspect : ImageAspect) : ImageConfig :=
  {| aspectRatio := aspect;
     imageSize := if isPro size then Some size else None |}.

Definition image_params (prompt : string) (size : ImageSize) (aspect : ImageAspect)
  : Params :=
  {| contents := Content [TextPart prompt];
     config := Some {| systemInstruction := None;
                       imageConfig := Some (image_config size aspect) |} |}.

(** [response.candidates?.[0]?.content?.parts || []] *)
Definition response_parts (response : Response) : list Part :=
  match candidates response with
  | Some (c :: _) =>
      match candidate_parts c with
      | Some ps => ps
      | None => []
      end
  | _ => []
  end.

(** The [for] loop over the parts: the first part with [inlineData]
    decides. *)
Fixpoint first_inline (ps : list Part) : option string :=
  match ps with
  | [] => None
  | InlineData data _ :: _ => Some data
  | TextPart _ :: tl => first_inline tl
  end.

Definition DATA_URL_PREFIX : string := "data:image/png;base64,".

(** Image Generation (Nano Banana Pro) *)
Definition generateImage (ai : Remote) (prompt : string) (size : ImageSize)
  (aspect : ImageAspect) : Async string :=
  bind (generateContentWithFallback ai (image_model size)
          (image_params prompt size aspect))
    (fun response =>
       match first_inline (response_parts response) with
       | Some data => ret (DATA_URL_PREFIX ++ data)
       | None => throw (Error "No image generated")
       end).

Definition edit_request (base64Image mimeType prompt : string) : Request :=
  {| model := FLASH_IMAGE;
     payload :=
       {| contents := Content [InlineData base64Image mimeType; TextPart prompt];
          config := None |} |}.

(** Image Editing (Nano Banana) *)
Definition editImage (ai : Remote) (base64Image mimeType prompt : string)
  : Async string :=
  bind (generateContent ai (edit_request base64Image mimeType prompt))
    (fun response =>
       match first_inline (response_parts response) with
       | Some data => ret (DATA_URL_PREFIX ++ data)
       | None => throw (Error "No edited image generated")
       end).

(** The generation calls of a trace, in order. *)
Definition calls (t : Trace) : list Request :=
  flat_map (fun ev => match ev with GenerateContent req => [req] | ConsoleWarn _ => [] end) t.

(** An endpoint that answers the [n]-th generation call with the [n]-th
    element of [answers]. *)
Definition scripted (answers : list (JsError + Response)) : Remote :=
  {| models_generateContent :=
       fun t _ => nth (List.length (calls t)) answers (inl (Error "no more answers")) |}.

Definition image_response (ps : list Part) : Response :=
  {| text := None; candidates := Some [ {| candidate_parts := Some ps |} ] |}.

Definition text_response (txt : option string) : Response :=
  {| text := txt; candidates := None |}.

End Sdk.

(* ================================================================== *)
(** ** The video screen (component [VeoGen]) *)

Module VeoGen.

(** The job that [handleGenerate] submits:
    [generateVeoVideo(prompt, base64Image, mimeType, aspectRatio)], with the
    base64 text and the type of the selected file, if any. *)
Definition submitted_params (prompt : string)
  (imageFile : option StudyArchitect.File) (aspectRatio : AspectRatio) : VideoParams :=
  veo_params prompt
    (option_map StudyArchitect.file_base64 imageFile)
    (option_map StudyArchitect.file_type imageFile)
    aspectRatio.

(** [setError("Generation Failed. " + (e.message || ""))] *)
Definition error_text (e : JsError) : string :=
  "Generation Failed. " ++ truthy_or (message e) "".

End VeoGen.

(* ================================================================== *)
(** ** Facts about strings and the fence pattern *)

Section StringFacts.

Lemma append_assoc (a b c : string) : (a ++ b) ++ c = a ++ (b ++ c).
Proof.
  induction a as [|x a IH]; simpl; [reflexivity | now rewrite IH].
Qed.

Lemma length_append (a b : string) :
  String.length (a ++ b) = String.length a + String.length b.
Proof.
  induction a as [|x a IH]; simpl; [reflexivity | now rewrite IH].
Qed.

Lemma append_same_length (a b c d : string) :
  a ++ b = c ++ d -> String.length a = String.length c -> a = c /\ b = d.
Proof.
  revert c; induction a as [|x a IH]; intros [|y c] E L; simpl in *;
    try discriminate.
  - auto.
  - injection E as -> E. injection L as L.
    destruct (IH c E L) as [-> ->]. auto.
Qed.

Lemma strip_prefix_append (p r : string) : strip_prefix p (p ++ r) = Some r.
Proof.
  induction p as [|x p IH]; simpl.
  - now destruct r.
  - now rewrite Ascii.eqb_refl.
Qed.

Lemma strip_prefix_Some (p s r : string) :
  strip_prefix p s = Some r -> s = p ++ r.
Proof.
  revert s; induction p as [|x p IH]; intros s H.
  - destruct s; simpl in H; injection H as <-; reflexivity.
  - destruct s as [|y s]; simpl in H; [discriminate|].
    destruct (Ascii.eqb_spec x y) as [->|]; [|discriminate].
    simpl. now rewrite (IH _ H).
Qed.

Lemma split_first_eq (pat s : string) :
  split_first pat s =
  match strip_prefix pat s with
  | Some rest => Some (EmptyString, rest)
  | None =>
      match s with
      | EmptyString => None
      | String c s' =>
          match split_first pat s' with
          | Some (before, rest) => Some (String c before, rest)
          | None => None
          end
      end
  end.
Proof. destruct s; reflexivity. Qed.

Lemma split_first_sound (pat s before rest : string) :
  split_first pat s = Some (before, rest) -> first_occurrence pat s before rest.
Proof.
  revert before rest; induction s as [|c s IH]; intros before rest H;
    rewrite split_first_eq in H.
  - destruct (strip_prefix pat "") eqn:P; [|discriminate].
    injection H as <- <-. split.
    + simpl. now apply strip_prefix_Some.
    + intros; simpl; lia.
  - destruct (strip_prefix pat (String c s)) eqn:P.
    + injection H as <- <-. split.
      * simpl. now apply strip_prefix_Some.
      * intros; simpl; lia.
    + destruct (split_first pat s) as [[b r]|] eqn:R; [|discriminate].
      injection H as <- <-.
      destruct (IH b r eq_refl) as [E M]. split.
      * simpl. now rewrite E.
      * intros [|y p] q Hs; simpl in Hs.
        -- rewrite Hs, strip_prefix_append in P. discriminate.
        -- injection Hs as _ Hs. simpl. apply le_n_S. eauto.
Qed.

Lemma split_first_None (pat s : string) :
  split_first pat s = None -> forall p q, s <> p ++ pat ++ q.
Proof.
  induction s as [|c s IH]; intros H p q E; rewrite split_first_eq in H.
  - destruct (strip_prefix pat "") eqn:P; [discriminate|].
    destruct p; simpl in E.
    + rewrite E, strip_prefix_append in P. discriminate.
    + discriminate.
  - destruct (strip_prefix pat (String c s)) eqn:P; [discriminate|].
    destruct (split_first pat s) as [[b r]|] eqn:R; [discriminate|].
    destruct p as [|y p]; simpl in E.
    + rewrite E, strip_prefix_append in P. discriminate.
    + injection E as _ E. exact (IH eq_refl p q E).
Qed.

Lemma first_occurrence_unique (pat s b1 r1 b2 r2 : string) :
  first_occurrence pat s b1 r1 -> first_occurrence pat s b2 r2 ->
  b1 = b2 /\ r1 = r2.
Proof.
  intros [E1 M1] [E2 M2].
  assert (L : String.length b1 = String.length b2).
  { apply Nat.le_antisymm; [apply (M1 _ _ E2) | apply (M2 _ _ E1)]. }
  rewrite E1 in E2.
  destruct (append_same_length _ _ _ _ E2 L) as [-> E3]. split; [reflexivity|].
  now destruct (append_same_length pat r1 pat r2 E3 eq_refl).
Qed.

Lemma split_first_complete (pat s before rest : string) :
  first_occurrence pat s before rest -> split_first pat s = Some (before, rest).
Proof.
  intros F. destruct (split_first pat s) as [[b r]|] eqn:R.
  - apply split_first_sound in R.
    now destruct (first_occurrence_unique _ _ _ _ _ _ R F) as [-> ->].
  - destruct F as [E _]. now apply (split_first_None _ _ R) in E.
Qed.

Lemma includes_true (pat s : string) :
  includes pat s = true <-> exists p q, s = p ++ pat ++ q.
Proof.
  unfold includes. destruct (split_first pat s) as [[b r]|] eqn:R.
  - apply split_first_sound in R. destruct R as [E _].
    split; [eauto | reflexivity].
  - split; [discriminate|]. intros (p & q & E).
    now apply (split_first_None _ _ R) in E.
Qed.

Lemma match_fence_eq (opening s : string) :
  match_fence opening s =
  match
    match strip_prefix opening s with
    | Some rest => option_map fst (split_first FENCE rest)
    | None => None
    end
  with
  | Some group => Some group
  | None =>
      match s with
      | EmptyString => None
      | String _ s' => match_fence opening s'
      end
  end.
Proof. destruct s; reflexivity. Qed.

(** The group is the content of the first fence that [opening] opens. *)
Lemma match_fence_first (opening s pre rest inner post : string) :
  first_occurrence opening s pre rest ->
  first_occurrence FENCE rest inner post ->
  match_fence opening s = Some inner.
Proof.
  intros F C. apply split_first_complete in C.
  revert s F; induction pre as [|c pre IH]; intros s [E M];
    rewrite match_fence_eq.
  - simpl in E. rewrite E, strip_prefix_append, C. reflexivity.
  - destruct (strip_prefix opening s) eqn:P.
    + apply strip_prefix_Some in P.
      specialize (M EmptyString s0 P). simpl in M. lia.
    + rewrite E. simpl. apply IH. split; [reflexivity|].
      intros p q Hs. apply le_S_n.
      apply (M (String c p) q). rewrite E. simpl. now rewrite Hs.
Qed.

(** A group only ever comes from a complete fence. *)
Lemma match_fence_Some (opening s group : string) :
  match_fence opening s = Some group ->
  exists pre post, s = pre ++ opening ++ group ++ FENCE ++ post.
Proof.
  revert group; induction s as [|c s IH]; intros group H;
    rewrite match_fence_eq in H.
  - destruct (strip_prefix opening "") eqn:P; [|discriminate].
    destruct (split_first FENCE s) as [[b r]|] eqn:R; simpl in H;
      [|discriminate].
    injection H as <-. apply strip_prefix_Some in P.
    apply split_first_sound in R. destruct R as [E _].
    exists EmptyString, r. simpl. now rewrite P, E.
  - destruct (strip_prefix opening (String c s)) eqn:P.
    + destruct (split_first FENCE s0) as [[b r]|] eqn:R; simpl in H.
      * injection H as <-. apply strip_prefix_Some in P.
        apply split_first_sound in R. destruct R as [E _].
        exists EmptyString, r. simpl. now rewrite P, E.
      * destruct (IH _ H) as (pre & post & E).
        exists (String c pre), post. simpl. now rewrite E.
    + destruct (IH _ H) as (pre & post & E).
      exists (String c pre), post. simpl. now rewrite E.
Qed.

Lemma match_fence_None (opening s : string) :
  (forall pre inner post, s <> pre ++ opening ++ inner ++ FENCE ++ post) ->
  match_fence opening s = None.
Proof.
  intros H. destruct (match_fence opening s) eqn:M; [|reflexivity].
  destruct (match_fence_Some _ _ _ M) as (pre & post & E).
  now apply H in E.
Qed.

End StringFacts.

(* ================================================================== *)
(** ** The model at work on small inputs *)

Example parse_object :
  Json.parse (Json.quoted " { 'a' : [1, 2.5, -3e2, true, null], 'b' : 'x' } ")
  = Some (Json.JObject
            [("a", Json.JArray [Json.JNumber (inject_Z 1); Json.JNumber (Qmake 5 2);
                                Json.JNumber (inject_Z (-300)); Json.JBool true;
                                Json.JNull]);
             ("b", Json.JString "x")]).
Proof. reflexivity. Qed.

Example parse_repeated_name :
  Json.parse (Json.quoted "{'a':1,'b':2,'a':3}")
  = Some (Json.JObject [("a", Json.JNumber (inject_Z 3));
                        ("b", Json.JNumber (inject_Z 2))]).
Proof. reflexivity. Qed.

Example parse_rejects :
  Json.parse "Sorry, I found nothing." = None
  /\ Json.parse "" = None
  /\ Json.parse "[1,]" = None
  /\ Json.parse "01" = None
  /\ Json.parse "{} {}" = None.
Proof. repeat split. Qed.

(** U+00E9 is two bytes and one code unit. *)
Example slice_counts_code_units :
  let e_acute := String (ascii_of_N 195) (String (ascii_of_N 169) "") in
  code_units (e_acute ++ "a") = [233%N; 97%N]
  /\ slice0 1 (e_acute ++ "a") = e_acute.
Proof. split; reflexivity. Qed.

(** U+1F600 is four bytes and two code units; a slice that ends between
    them keeps the high surrogate alone. *)
Example slice_cuts_a_pair :
  let face := String (ascii_of_N 240) (String (ascii_of_N 159)
                (String (ascii_of_N 152) (String (ascii_of_N 128) ""))) in
  code_units face = [55357%N; 56832%N]
  /\ slice0 1 face = lone_surrogate 55357
  /\ code_units (slice0 1 face) = [55357%N]
  /\ slice0 2 face = face.
Proof. repeat split; reflexivity. Qed.

Example fence_is_lazy :
  match_fence "```html" "see ```html<p>``` and ```html<b>```" = Some "<p>".
Proof. reflexivity. Qed.

Example fence_needs_closing :
  match_fence "```html" "```html<p>" = None.
Proof. reflexivity. Qed.

Example fence_json_before_plain :
  cleaned (Some "```a``` then ```json[1]```") = "[1]".
Proof. reflexivity. Qed.

Example cleaned_without_text :
  cleaned None = "{}" /\ cleaned (Some "") = "{}".
Proof. split; reflexivity. Qed.

Example unavailable_signals :
  is_unavailable (Error "got status: 404 Not Found") = true
  /\ is_unavailable (Error "model not found") = true
  /\ is_unavailable (Error "Not Found") = false
  /\ is_unavailable (Error "429 quota exceeded") = false
  /\ is_unavailable {| name := "Error"; message := None |} = false.
Proof. repeat split. Qed.

Example veo_without_uri :
  fst (generateVeoVideo
         (Sample.video_job (inr Sample.running) [inr (Sample.finished None)])
         3 "a cat" None None Landscape16x9 [])
  = Rejected NO_URI.
Proof. reflexivity. Qed.

Example veo_still_pending :
  fst (generateVeoVideo
         (Sample.video_job (inr Sample.running)
            [inr Sample.still_running; inr Sample.still_running;
             inr (Sample.finished (Some "https://video/1"))])
         2 "a cat" None None Landscape16x9 [])
  = Unsettled.
Proof. reflexivity. Qed.

(* ================================================================== *)
(** ** The fallback helper *)

Section Fallback.

Variable ai : Remote.

Lemma is_unavailable_spec (e : JsError) :
  is_unavailable e = true <-> capability_unavailable e.
Proof.
  unfold is_unavailable, capability_unavailable, contains.
  destruct (message e) as [msg|].
  - rewrite orb_true_iff, !includes_true. split.
    + intros H. exists msg. auto.
    + intros (m & [= <-] & H). exact H.
  - split; [discriminate | intros (m & [=] & _)].
Qed.

Lemma not_unavailable_spec (e : JsError) :
  is_unavailable e = false <-> ~ capability_unavailable e.
Proof.
  rewrite <- is_unavailable_spec. destruct (is_unavailable e); split;
    congruence.
Qed.

(** The helper, one case per way the two calls can end. *)
Lemma generateContentWithFallback_run (model : string) (params : Params) (t : Trace) :
  let primary := {| model := model; payload := params |} in
  let secondary := {| model := FLASH; payload := params |} in
  let warning :=
    ConsoleWarn ("Model " ++ model ++ " failed, falling back to gemini-2.5-flash") in
  generateContentWithFallback ai model params t =
  match models_generateContent ai t primary with
  | inr response => (Fulfilled response, t ++ [GenerateContent primary])
  | inl e =>
      if is_unavailable e then
        let warned := t ++ [GenerateContent primary; warning] in
        (match models_generateContent ai warned secondary with
         | inr response => Fulfilled response
         | inl e' => Rejected e'
         end, warned ++ [GenerateContent secondary])
      else (Rejected e, t ++ [GenerateContent primary])
  end%list.
Proof.
  unfold generateContentWithFallback, try_catch, generateContent, remote_call.
  cbv zeta.
  destruct (models_generateContent ai t _) as [e|response]; [|reflexivity].
  destruct (is_unavailable e); [|reflexivity].
  unfold bind, emit. rewrite <- app_assoc. simpl.
  now destruct (models_generateContent ai _ _).
Qed.

(** Every generation call of the helper carries the caller's payload. *)
Lemma generateContentWithFallback_payload (model : string) (params : Params) (t : Trace) :
  exists issued,
    snd (generateContentWithFallback ai model params t) = (t ++ issued)%list /\
    forall req, In (GenerateContent req) issued -> payload req = params.
Proof.
  rewrite generateContentWithFallback_run. cbv zeta.
  destruct (models_generateContent ai t _) as [e|response].
  - destruct (is_unavailable e).
    + eexists. split; [simpl; rewrite <- app_assoc; reflexivity|].
      simpl. intros req [[= <-]|[[=]|[[= <-]|[]]]]; reflexivity.
    + eexists. split; [reflexivity|].
      simpl. intros req [[= <-]|[]]; reflexivity.
  - eexists. split; [reflexivity|].
    simpl. intros req [[= <-]|[]]; reflexivity.
Qed.

End Fallback.

(** C1. When the primary call fails with a capability-unavailable error
    (a message that contains "404" or "not found"), the helper warns, issues
    exactly one call to gemini-2.5-flash with the same payload and settles
    as that call does: its response is returned, its error is rethrown with
    no further call.  When the primary call fails with any other error, no
    second call is issued and that error is rethrown unchanged. *)
Theorem fallback_invoker (ai : Remote) (model : string) (params : Params)
  (t : Trace) (e : JsError) :
  let primary := {| model := model; payload := params |} in
  let secondary := {| model := FLASH; payload := params |} in
  let warned :=
    (t ++ [GenerateContent primary;
           ConsoleWarn ("Model " ++ model ++ " failed, falling back to gemini-2.5-flash")])%list in
  models_generateContent ai t primary = inl e ->
  (capability_unavailable e ->
   generateContentWithFallback ai model params t =
   (match models_generateContent ai warned secondary with
    | inr response => Fulfilled response
    | inl e' => Rejected e'
    end, (warned ++ [GenerateContent secondary])%list))
  /\
  (~ capability_unavailable e ->
   generateContentWithFallback ai model params t =
   (Rejected e, (t ++ [GenerateContent primary])%list)).
Proof.
  intros primary secondary warned H.
  pose proof (generateContentWithFallback_run ai model params t) as R.
  cbv zeta in R. fold primary secondary in R. rewrite H in R.
  split; intros U.
  - apply is_unavailable_spec in U. now rewrite U in R.
  - apply not_unavailable_spec in U. now rewrite U in R.
Qed.

Lemma fallback_invoker_witness :
  let e := Error "404 Not Found: models/gemini-3-pro-preview" in
  let hi := {| text := Some "hi"; candidates := [] |} in
  let ai := Sample.flash_only e (inr hi) in
  generateContentWithFallback ai PRO_PREVIEW Sample.plain_params [] =
  (Fulfilled hi,
   [GenerateContent {| model := PRO_PREVIEW; payload := Sample.plain_params |};
    ConsoleWarn "Model gemini-3-pro-preview failed, falling back to gemini-2.5-flash";
    GenerateContent {| model := FLASH; payload := Sample.plain_params |}]).
Proof.
  intros e hi ai.
  apply (proj1 (fallback_invoker ai PRO_PREVIEW Sample.plain_params [] e eq_refl)).
  apply is_unavailable_spec. reflexivity.
Defined.

(* ================================================================== *)
(** ** Extraction of fenced payloads *)

Section Extraction.

Lemma truthy_or_nonempty (s d : string) : s <> "" -> truthy_or (Some s) d = s.
Proof. destruct s; [congruence | reflexivity]. Qed.

Lemma truthy_or_empty (s : string) : truthy_or (Some s) "" = s.
Proof. now destruct s. Qed.

Lemma first_occurrence_nonempty (pat s before rest : string) :
  pat <> "" -> first_occurrence pat s before rest -> s <> "".
Proof.
  intros P [E _] ->. destruct before; simpl in E; [|discriminate].
  destruct pat; [congruence | discriminate].
Qed.

(** A complete fence is always found. *)
Lemma match_fence_complete (opening s : string) :
  has_fence opening s -> exists group, match_fence opening s = Some group.
Proof.
  intros (pre & inner & post & E). revert s E.
  induction pre as [|c pre IH]; intros s E; rewrite match_fence_eq.
  - change (s = opening ++ inner ++ FENCE ++ post) in E.
    rewrite E, strip_prefix_append.
    destruct (split_first FENCE (inner ++ FENCE ++ post)) as [[b r]|] eqn:R.
    + eexists. reflexivity.
    + exfalso. now apply (split_first_None _ _ R inner post).
  - destruct (match strip_prefix opening s with
              | Some rest => option_map fst (split_first FENCE rest)
              | None => None
              end); [eauto|].
    rewrite E. simpl. now apply IH.
Qed.

Lemma append_split (x y a z : string) :
  x ++ y = a ++ z -> String.length x <= String.length a ->
  exists a', a = x ++ a' /\ y = a' ++ z.
Proof.
  revert a; induction x as [|c x IH]; intros a E L.
  - exists a. auto.
  - destruct a as [|c' a]; simpl in L; [lia|].
    simpl in E. injection E as <- E.
    destruct (IH a E) as (a' & -> & ->); [lia|].
    exists a'. auto.
Qed.

(** The group found is the content of the first fence: the leftmost
    [opening] of the text, up to the first closing backticks after it.
    A later [opening] that is closed closes the first one as well, so the
    search never has to move past the first. *)
Lemma match_fence_is_first (opening s group : string) :
  match_fence opening s = Some group ->
  exists pre rest post,
    first_occurrence opening s pre rest /\ first_occurrence FENCE rest group post.
Proof.
  revert group; induction s as [|c s IH]; intros group H;
    rewrite match_fence_eq in H.
  - destruct (strip_prefix opening "") as [rest|] eqn:P; [|discriminate].
    destruct (split_first FENCE rest) as [[b r]|] eqn:R; simpl in H;
      [|discriminate].
    injection H as <-. exists "", rest, r. split.
    + split; [simpl; now apply strip_prefix_Some | intros; simpl; lia].
    + now apply split_first_sound.
  - destruct (strip_prefix opening (String c s)) as [rest|] eqn:P.
    + destruct (split_first FENCE rest) as [[b r]|] eqn:R; simpl in H.
      * injection H as <-. exists "", rest, r. split.
        -- split; [simpl; now apply strip_prefix_Some | intros; simpl; lia].
        -- now apply split_first_sound.
      * exfalso. destruct (IH _ H) as (pre & rest' & post & [E _] & [E' _]).
        apply strip_prefix_Some in P.
        assert (Q : opening ++ rest
                    = (String c pre ++ opening ++ group) ++ FENCE ++ post).
        { rewrite <- P, E, E'. simpl. now rewrite !append_assoc. }
        apply append_split in Q.
        -- destruct Q as (a' & _ & Q). now apply (split_first_None _ _ R) in Q.
        -- rewrite !length_append. simpl. lia.
    + destruct (IH _ H) as (pre & rest & post & [E M] & C).
      exists (String c pre), rest, post. split; [|exact C]. split.
      * simpl. now rewrite E.
      * intros [|y p] q Hs; simpl in Hs.
        -- rewrite Hs, strip_prefix_append in P. discriminate.
        -- injection Hs as _ Hs. simpl. apply le_n_S. eauto.
Qed.

Lemma has_fence_first (opening s : string) :
  has_fence opening s ->
  exists pre rest inner post,
    first_occurrence opening s pre rest /\ first_occurrence FENCE rest inner post.
Proof.
  intros H. destruct (match_fence_complete _ _ H) as [g G].
  destruct (match_fence_is_first _ _ _ G) as (pre & rest & post & F & C).
  now exists pre, rest, g, post.
Qed.

Lemma no_fence_iff (opening s : string) :
  ~ has_fence opening s <-> match_fence opening s = None.
Proof.
  split.
  - intros H. apply match_fence_None. intros pre inner post E.
    apply H. now exists pre, inner, post.
  - intros M H. destruct (match_fence_complete _ _ H) as [g G]. congruence.
Qed.

Lemma json_fence_is_fence (s : string) :
  has_fence "```json" s -> has_fence FENCE s.
Proof.
  intros (pre & inner & post & E).
  exists pre, ("json" ++ inner), post. rewrite E. reflexivity.
Qed.

Lemma simulator_code_found (raw pre rest inner post : string) :
  first_occurrence "```html" raw pre rest ->
  first_occurrence FENCE rest inner post ->
  simulator_code (Some raw) = inner.
Proof.
  intros F C. unfold simulator_code. rewrite truthy_or_empty.
  now rewrite (match_fence_first _ _ _ _ _ _ F C).
Qed.

Lemma simulator_code_absent (response_text : option string) :
  (forall raw, response_text = Some raw -> ~ has_fence "```html" raw) ->
  simulator_code response_text = "".
Proof.
  intros H. unfold simulator_code. destruct response_text as [raw|].
  - rewrite truthy_or_empty.
    specialize (H raw eq_refl). apply no_fence_iff in H. now rewrite H.
  - reflexivity.
Qed.

End Extraction.

(** C6 (as amended).  Whatever prose surrounds it, the text between the
    first occurrence of [```html] in the response text and the first
    [```] after it is returned exactly, whatever follows [```html]: what
    is left of a longer label, such as the 5 of html5, heads the result.
    When no [```html] is followed by [```], or there is no text, the
    empty string is returned.  A text in which some [```html] is followed
    by [```] has a first such place, so the two cases cover every
    response. *)
Theorem simulator_extraction (ai : Remote) (approvedPlan smartNotes : string)
  (t t' : Trace) (resp : Response) :
  generateContentWithFallback ai PRO_PREVIEW
    (simulator_params approvedPlan smartNotes) t = (Fulfilled resp, t') ->
  (forall raw pre rest inner post,
     text resp = Some raw ->
     first_occurrence "```html" raw pre rest ->
     first_occurrence FENCE rest inner post ->
     generateStudySimulator ai approvedPlan smartNotes t = (Fulfilled inner, t'))
  /\
  ((forall raw, text resp = Some raw -> ~ has_fence "```html" raw) ->
   generateStudySimulator ai approvedPlan smartNotes t = (Fulfilled "", t'))
  /\
  (forall raw,
     text resp = Some raw -> has_fence "```html" raw ->
     exists pre rest inner post,
       first_occurrence "```html" raw pre rest
       /\ first_occurrence FENCE rest inner post).
Proof.
  intros H.
  assert (R : generateStudySimulator ai approvedPlan smartNotes t =
              (Fulfilled (simulator_code (text resp)), t')).
  { unfold generateStudySimulator, try_catch, bind. now rewrite H. }
  split; [|split].
  - intros raw pre rest inner post T F C.
    now rewrite R, T, (simulator_code_found _ _ _ _ _ F C).
  - intros N. now rewrite R, (simulator_code_absent _ N).
  - intros raw _ F. now apply has_fence_first.
Qed.

Lemma simulator_extraction_witness :
  let raw := "Here is your simulator: ```html<canvas></canvas>``` Enjoy ```js```" in
  let ai := Sample.answering (Some raw) in
  fst (generateStudySimulator ai "plan" "notes" []) = Fulfilled "<canvas></canvas>".
Proof.
  intros raw ai.
  rewrite (proj1 (simulator_extraction ai "plan" "notes" []
                    (snd (generateContentWithFallback ai PRO_PREVIEW
                            (simulator_params "plan" "notes") []))
                    {| text := Some raw; candidates := [] |} eq_refl)
             raw "Here is your simulator: " "<canvas></canvas>``` Enjoy ```js```"
             "<canvas></canvas>" " Enjoy ```js```" eq_refl).
  - reflexivity.
  - apply split_first_sound. reflexivity.
  - apply split_first_sound. reflexivity.
Defined.

(** C6 as stated fails: a response whose only fence is labelled [html5]
    holds no fence labelled [html], so nothing should be returned; the code
    takes the fence and returns its content with the rest of the label in
    front. *)
Lemma html5_fence_is_taken :
  Claimed.fence_labelled "html" Sample.html5_fenced = None
  /\ Claimed.simulator_source Sample.html5_fenced = ""
  /\ fst (generateStudySimulator (Sample.answering (Some Sample.html5_fenced))
            "plan" "notes" [])
     = Fulfilled ("5" ++ Sample.NEWLINE ++ "<p>hi</p>" ++ Sample.NEWLINE)
  /\ simulator_code (Some Sample.html5_fenced)
     <> Claimed.simulator_source Sample.html5_fenced.
Proof.
  repeat split; try reflexivity. vm_compute. discriminate.
Qed.

(** C4 (as amended).  The response text of the fact search is unwrapped in
    this order: (a) when it holds a fence opened by [```json], the content
    of the first such fence is taken; (b) otherwise, when it holds any
    fence at all, the text between the first [```] and the next [```] is
    taken, whatever follows the opening backticks, so that the label of a
    fence labelled with another language stays at the head of the payload;
    (c) otherwise the whole text is the payload, except that an empty
    text, like a missing one, gives the payload [{}]. *)
Theorem facts_extraction_order (raw : string) :
  (has_fence "```json" raw ->
   exists pre rest inner post,
     first_occurrence "```json" raw pre rest
     /\ first_occurrence FENCE rest inner post
     /\ cleaned (Some raw) = inner)
  /\
  (~ has_fence "```json" raw -> has_fence FENCE raw ->
   exists pre rest inner post,
     first_occurrence FENCE raw pre rest
     /\ first_occurrence FENCE rest inner post
     /\ cleaned (Some raw) = inner)
  /\
  (forall label body,
     raw = FENCE ++ label ++ body ++ FENCE ->
     ~ has_fence "```json" raw ->
     first_occurrence FENCE (label ++ body ++ FENCE) (label ++ body) "" ->
     cleaned (Some raw) = label ++ body)
  /\
  (~ has_fence FENCE raw -> raw <> "" -> cleaned (Some raw) = raw)
  /\
  (raw = "" -> cleaned (Some raw) = "{}")
  /\
  cleaned None = "{}".
Proof.
  assert (B : ~ has_fence "```json" raw ->
              forall pre rest inner post,
                first_occurrence FENCE raw pre rest ->
                first_occurrence FENCE rest inner post ->
                cleaned (Some raw) = inner).
  { intros N pre rest inner post F C. unfold cleaned.
    rewrite (truthy_or_nonempty raw);
      [|apply (first_occurrence_nonempty FENCE raw pre rest); [discriminate|exact F]].
    apply no_fence_iff in N.
    now rewrite N, (match_fence_first _ _ _ _ _ _ F C). }
  split; [|split; [|split; [|split; [|split]]]].
  - intros H. destruct (has_fence_first _ _ H) as (pre & rest & inner & post & F & C).
    exists pre, rest, inner, post. repeat split; try apply F; try apply C.
    unfold cleaned.
    rewrite (truthy_or_nonempty raw);
      [|apply (first_occurrence_nonempty "```json" raw pre rest); [discriminate|exact F]].
    now rewrite (match_fence_first _ _ _ _ _ _ F C).
  - intros N H. destruct (has_fence_first _ _ H) as (pre & rest & inner & post & F & C).
    exists pre, rest, inner, post. repeat split; try apply F; try apply C.
    exact (B N _ _ _ _ F C).
  - intros label body E N C.
    apply (B N "" (label ++ body ++ FENCE) (label ++ body) ""); [|exact C].
    split.
    + rewrite E. reflexivity.
    + intros; simpl; lia.
  - intros N E. unfold cleaned. rewrite (truthy_or_nonempty raw _ E).
    assert (N' : ~ has_fence "```json" raw)
      by (intros F; apply N; now apply json_fence_is_fence).
    apply no_fence_iff in N, N'. now rewrite N, N'.
  - intros ->. reflexivity.
  - reflexivity.
Qed.

Lemma facts_extraction_order_witness :
  cleaned (Some Sample.js_fenced) = "js" ++ Sample.NEWLINE ++ "[]" ++ Sample.NEWLINE.
Proof.
  apply (proj1 (proj2 (proj2 (facts_extraction_order Sample.js_fenced)))
           "js" (Sample.NEWLINE ++ "[]" ++ Sample.NEWLINE)).
  - reflexivity.
  - apply no_fence_iff. reflexivity.
  - apply split_first_sound. reflexivity.
Defined.

(** C4 as stated fails: a response wrapped in a fence labelled [js] holds
    neither a [json] fence nor an unlabelled one, so the whole text should
    be the payload; the code strips the fence as if it had no label. *)
Lemma other_label_is_stripped :
  Claimed.payload Sample.js_fenced = Sample.js_fenced
  /\ match_fence "```json" Sample.js_fenced = None
  /\ cleaned (Some Sample.js_fenced) = "js" ++ Sample.NEWLINE ++ "[]" ++ Sample.NEWLINE
  /\ cleaned (Some Sample.js_fenced) <> Claimed.payload Sample.js_fenced.
Proof.
  repeat split; try reflexivity. vm_compute. discriminate.
Qed.

(* ================================================================== *)
(** ** Fact retrieval and quiz generation *)

Section ParsedResponses.

Variable ai : Remote.

Ltac run_async :=
  unfold try_catch, bind, generateContent, remote_call, JSON_parse, emit, ret,
    throw;
  cbv zeta.

(** [getInterestingFacts], one case per way the call and the parse end. *)
Lemma getInterestingFacts_run (topic : string) (t : Trace) :
  let call := GenerateContent (facts_request topic) in
  getInterestingFacts ai topic t =
  match models_generateContent ai t (facts_request topic) with
  | inl e =>
      (Fulfilled DEFAULT_FACTS, t ++ [call; ConsoleError "Fact Fetch Error" e])
  | inr resp =>
      match Json.parse (cleaned (text resp)) with
      | Some v => (Fulfilled v, t ++ [call])
      | None =>
          (Fulfilled DEFAULT_FACTS,
           t ++ [call; ConsoleError "Fact Fetch Error" SyntaxError])
      end
  end%list.
Proof.
  unfold getInterestingFacts. run_async.
  destruct (models_generateContent ai t _) as [e|resp].
  - now rewrite <- app_assoc.
  - destruct (Json.parse _); [reflexivity|]. now rewrite <- app_assoc.
Qed.

(** [generateQuiz], one case per way the call and the parse end. *)
Lemma generateQuiz_run (context : string) (t : Trace) :
  let call := GenerateContent (quiz_request context) in
  generateQuiz ai context t =
  match models_generateContent ai t (quiz_request context) with
  | inl e =>
      (Fulfilled (Json.JArray []), t ++ [call; ConsoleError "Quiz Gen Error" e])
  | inr resp =>
      match Json.parse (truthy_or (text resp) "[]") with
      | Some v => (Fulfilled v, t ++ [call])
      | None =>
          (Fulfilled (Json.JArray []),
           t ++ [call; ConsoleError "Quiz Gen Error" SyntaxError])
      end
  end%list.
Proof.
  unfold generateQuiz. run_async.
  destruct (models_generateContent ai t _) as [e|resp].
  - now rewrite <- app_assoc.
  - destruct (Json.parse _); [reflexivity|]. now rewrite <- app_assoc.
Qed.

End ParsedResponses.

(** C5. [getInterestingFacts] never raises: it always fulfils.  When the
    remote call throws, or the cleaned response text is not parseable
    JSON, it logs the error and fulfils with the fixed default: the three
    facts "Learning is a journey.", "Stay curious.", "Knowledge is power."
    and an empty [searchContext]. *)
Theorem facts_failure_is_not_fatal (ai : Remote) (topic : string) (t : Trace) :
  (exists v t', getInterestingFacts ai topic t = (Fulfilled v, t'))
  /\
  (forall e,
     models_generateContent ai t (facts_request topic) = inl e ->
     fst (getInterestingFacts ai topic t) = Fulfilled DEFAULT_FACTS)
  /\
  (forall resp,
     models_generateContent ai t (facts_request topic) = inr resp ->
     Json.parse (cleaned (text resp)) = None ->
     fst (getInterestingFacts ai topic t) = Fulfilled DEFAULT_FACTS)
  /\
  DEFAULT_FACTS =
  Json.JObject
    [("facts",
      Json.JArray [Json.JString "Learning is a journey.";
                   Json.JString "Stay curious.";
                   Json.JString "Knowledge is power."]);
     ("searchContext", Json.JString "")].
Proof.
  pose proof (getInterestingFacts_run ai topic t) as R. cbv zeta in R.
  repeat split.
  - rewrite R. destruct (models_generateContent ai t _) as [e|resp]; [eauto|].
    destruct (Json.parse _); eauto.
  - intros e H. now rewrite R, H.
  - intros resp H P. now rewrite R, H, P.
Qed.

Lemma facts_failure_is_not_fatal_witness :
  fst (getInterestingFacts (Sample.failing (Error "fetch failed")) "Photosynthesis" [])
  = Fulfilled DEFAULT_FACTS
  /\
  fst (getInterestingFacts (Sample.answering (Some "Sorry, I found nothing."))
         "Photosynthesis" [])
  = Fulfilled DEFAULT_FACTS.
Proof.
  split.
  - apply (proj1 (proj2 (facts_failure_is_not_fatal
                           (Sample.failing (Error "fetch failed"))
                           "Photosynthesis" []))
             (Error "fetch failed")).
    reflexivity.
  - apply (proj1 (proj2 (proj2 (facts_failure_is_not_fatal
                           (Sample.answering (Some "Sorry, I found nothing."))
                           "Photosynthesis" [])))
             {| text := Some "Sorry, I found nothing."; candidates := [] |}).
    + reflexivity.
    + reflexivity.
Defined.

(** C9. When the call succeeds and the cleaned response text parses,
    [getInterestingFacts] fulfils with the parsed value as it is, whatever
    its shape, and logs nothing: an empty object (also what a response
    without text yields) is returned, not the default.  The default is
    produced only by the [catch], that is when the call or the parse
    throws. *)
Theorem facts_are_not_validated (ai : Remote) (topic : string) (t : Trace)
  (resp : Response) :
  models_generateContent ai t (facts_request topic) = inr resp ->
  (forall v,
     Json.parse (cleaned (text resp)) = Some v ->
     getInterestingFacts ai topic t =
     (Fulfilled v, (t ++ [GenerateContent (facts_request topic)])%list))
  /\
  (text resp = Some "{}" \/ text resp = None ->
   fst (getInterestingFacts ai topic t) = Fulfilled (Json.JObject [])
   /\ Json.JObject [] <> DEFAULT_FACTS)
  /\
  (forall e,
     In (ConsoleError "Fact Fetch Error" e)
        (skipn (List.length t) (snd (getInterestingFacts ai topic t))) ->
     Json.parse (cleaned (text resp)) = None).
Proof.
  intros H.
  pose proof (getInterestingFacts_run ai topic t) as R. cbv zeta in R.
  rewrite H in R. repeat split.
  - intros v P. now rewrite R, P.
  - rewrite R. now destruct H0 as [-> | ->].
  - discriminate.
  - intros e. rewrite R. destruct (Json.parse _); [|reflexivity].
    simpl. rewrite skipn_app, skipn_all, Nat.sub_diag. simpl.
    intros [[=]|[]].
Qed.

Lemma facts_are_not_validated_witness :
  getInterestingFacts (Sample.answering (Some (Json.quoted "{'facts':'none','searchContext':7}")))
    "Photosynthesis" []
  = (Fulfilled (Json.JObject [("facts", Json.JString "none");
                              ("searchContext", Json.JNumber (inject_Z 7))]),
     [GenerateContent (facts_request "Photosynthesis")]).
Proof.
  apply (proj1 (facts_are_not_validated
                  (Sample.answering (Some (Json.quoted "{'facts':'none','searchContext':7}")))
                  "Photosynthesis" []
                  {| text := Some (Json.quoted "{'facts':'none','searchContext':7}");
                     candidates := [] |} eq_refl)).
  reflexivity.
Defined.

(** C2 (as amended).  When the call succeeds and the response text, or
    [[]] in place of a missing or empty text, parses as JSON, [generateQuiz]
    fulfils with the parsed value as it is: the list returned is the list
    of the response, so an item whose [correctAnswer] does not index an
    element of its [options] is returned in it, unchanged, and is neither
    excluded nor coerced.  When the call or the parse throws, the empty
    list is returned. *)
Theorem quiz_items_pass_through (ai : Remote) (context : string) (t : Trace) :
  let answer := models_generateContent ai t (quiz_request context) in
  (forall resp v,
     answer = inr resp ->
     Json.parse (truthy_or (text resp) "[]") = Some v ->
     generateQuiz ai context t
     = (Fulfilled v, (t ++ [GenerateContent (quiz_request context)])%list))
  /\
  (forall resp items item,
     answer = inr resp ->
     Json.parse (truthy_or (text resp) "[]") = Some (Json.JArray items) ->
     In item items -> Quiz.index_valid item = false ->
     exists returned,
       fst (generateQuiz ai context t) = Fulfilled (Json.JArray returned)
       /\ returned = items /\ In item returned)
  /\
  (forall e,
     answer = inl e ->
     fst (generateQuiz ai context t) = Fulfilled (Json.JArray []))
  /\
  (forall resp,
     answer = inr resp ->
     Json.parse (truthy_or (text resp) "[]") = None ->
     fst (generateQuiz ai context t) = Fulfilled (Json.JArray [])).
Proof.
  cbv zeta. pose proof (generateQuiz_run ai context t) as R. cbv zeta in R.
  split; [|split; [|split]].
  - intros resp v H P. now rewrite R, H, P.
  - intros resp items item H P I _. exists items. now rewrite R, H, P.
  - intros e H. now rewrite R, H.
  - intros resp H P. now rewrite R, H, P.
Qed.

Lemma quiz_items_pass_through_witness :
  Quiz.index_valid Sample.quiz_item = false
  /\ exists returned,
       fst (generateQuiz (Sample.answering (Some Sample.quiz_text)) "notes" [])
       = Fulfilled (Json.JArray returned)
       /\ returned = [Sample.quiz_item] /\ In Sample.quiz_item returned.
Proof.
  split; [reflexivity|].
  apply (proj1 (proj2 (quiz_items_pass_through
                         (Sample.answering (Some Sample.quiz_text)) "notes" []))
           {| text := Some Sample.quiz_text; candidates := [] |}
           [Sample.quiz_item] Sample.quiz_item).
  - reflexivity.
  - reflexivity.
  - now left.
  - reflexivity.
Defined.

(** C2 as stated fails: a response that satisfies the response schema, with
    one question whose [correctAnswer] is 7 for two options, is returned
    with that question in it. *)
Lemma quiz_index_is_not_checked :
  ~ (forall (ai : Remote) (context : string) (t : Trace) (items : list Json.value),
       fst (generateQuiz ai context t) = Fulfilled (Json.JArray items) ->
       Forall (fun item => Quiz.index_valid item = true) items).
Proof.
  intros claim.
  specialize (claim (Sample.answering (Some Sample.quiz_text)) "notes" []
                [Sample.quiz_item] eq_refl).
  inversion claim as [|? ? V _]. discriminate V.
Qed.




(* ================================================================== *)
(** ** The Analyzing phase *)

Section Analyzing.

Variable ai : Remote.

Lemma context_block_contains (summary : string) :
  contains summary (analyze_prompt_context summary).
Proof.
  unfold contains, analyze_prompt_context.
  match goal with
  | |- exists p q, ?a ++ DQ ++ summary ++ ?r = _ => exists (a ++ DQ), r
  end.
  now rewrite append_assoc.
Qed.

Lemma contains_inside (pat s before after : string) :
  contains pat s -> contains pat (before ++ s ++ after).
Proof.
  intros (p & q & ->). exists (before ++ p), (q ++ after).
  now rewrite !append_assoc.
Qed.

(** The first event of [analyzeStudyTopic] is the call to the primary
    model, and every later generation call carries the same payload. *)
Lemma analyzeStudyTopic_requests (input : string) (mediaData : option (string * string))
  (isVideoAnalysis : bool) (searchContext : option string) (t : Trace) :
  let params := analyze_params input mediaData isVideoAnalysis searchContext in
  exists issued,
    snd (analyzeStudyTopic ai input mediaData isVideoAnalysis searchContext t)
    = (t ++ GenerateContent {| model := PRO_PREVIEW; payload := params |} :: issued)%list
    /\ forall req, In (GenerateContent req) issued -> payload req = params.
Proof.
  intros params.
  unfold analyzeStudyTopic, try_catch, bind. fold params.
  rewrite generateContentWithFallback_run. cbv zeta.
  destruct (models_generateContent ai t _) as [e|resp].
  - destruct (is_unavailable e).
    + destruct (models_generateContent ai _ _) as [e'|resp];
        unfold emit, throw, ret; simpl; rewrite <- ?app_assoc; simpl;
        eexists; (split; [reflexivity|]); simpl.
      * intros req [[=]|[[= <-]|[[=]|[]]]]; reflexivity.
      * intros req [[=]|[[= <-]|[]]]; reflexivity.
    + unfold emit, throw; simpl; rewrite <- ?app_assoc; simpl.
      eexists; (split; [reflexivity|]); simpl.
      intros req [[=]|[]].
  - exists []. split; [reflexivity|]. intros req [].
Qed.

End Analyzing.

(** C7. The request of the Analyzing phase is built from the pre-fetched
    summary alone.  With a non-empty summary, the system instruction holds
    that summary (role text, context block, requirements) and the tool
    list is empty.  With no summary or an empty one, the instruction is the
    role text and the requirements, and the tool list is the web search.
    Which of the two tool lists is used depends only on whether the
    summary is empty, and the request built is the one sent to the primary
    model and, on fallback, to the secondary one. *)
Theorem analyzing_uses_cached_context (ai : Remote) (input : string)
  (mediaData : option (string * string)) (isVideoAnalysis : bool)
  (searchContext : option string) (t : Trace) :
  let params := analyze_params input mediaData isVideoAnalysis searchContext in
  (forall summary,
     searchContext = Some summary -> summary <> "" ->
     tools (config params) = Some []
     /\ systemInstruction (config params)
        = Some (analyze_prompt_role ++ analyze_prompt_context summary
                ++ analyze_prompt_requirements)
     /\ contains summary (analyze_prompt_role ++ analyze_prompt_context summary
                          ++ analyze_prompt_requirements))
  /\
  (searchContext = None \/ searchContext = Some "" ->
   tools (config params) = Some [googleSearch]
   /\ systemInstruction (config params)
      = Some (analyze_prompt_role ++ analyze_prompt_requirements))
  /\
  (forall other, truthy other = truthy searchContext ->
                 analyze_tools other = analyze_tools searchContext)
  /\
  (exists issued,
     snd (analyzeStudyTopic ai input mediaData isVideoAnalysis searchContext t)
     = (t ++ GenerateContent {| model := PRO_PREVIEW; payload := params |} :: issued)%list
     /\ forall req, In (GenerateContent req) issued -> payload req = params).
Proof.
  intros params. repeat split.
  - destruct summary; [congruence | subst; reflexivity].
  - destruct summary; [congruence|]. subst. simpl.
    unfold analyze_system_prompt. now rewrite append_assoc.
  - apply contains_inside, context_block_contains.
  - now destruct H as [-> | ->].
  - now destruct H as [-> | ->].
  - intros other H. unfold analyze_tools. now rewrite H.
  - apply analyzeStudyTopic_requests.
Qed.

Lemma analyzing_uses_cached_context_witness :
  tools (config (analyze_params "Photosynthesis" None false
                   (Some "Plants turn light into sugar."))) = Some []
  /\ tools (config (analyze_params "Photosynthesis" None false (Some "")))
     = Some [googleSearch].
Proof.
  split.
  - apply (proj1 (analyzing_uses_cached_context (Sample.answering None)
                    "Photosynthesis" None false
                    (Some "Plants turn light into sugar.") [])
             "Plants turn light into sugar." eq_refl).
    discriminate.
  - apply (proj1 (proj2 (analyzing_uses_cached_context (Sample.answering None)
                           "Photosynthesis" None false (Some "") []))).
    right. reflexivity.
Defined.

(* ================================================================== *)
(** ** The operation poller *)

Section Poller.

Variable ai : Remote.

Lemma poll_done (rounds : nat) (operation : Operation) (t : Trace) :
  is_done operation = true -> poll ai rounds operation t = (Fulfilled operation, t).
Proof. intros D. destruct rounds; simpl; now rewrite D. Qed.

(** One round of the loop on an operation that is not done. *)
Lemma poll_round (n : nat) (operation : Operation) (t : Trace) :
  is_done operation = false ->
  poll ai (S n) operation t =
  match operations_getVideosOperation ai (t ++ [SetTimeout 5000]) operation with
  | inr next => poll ai n next (t ++ [SetTimeout 5000; GetVideosOperation operation])
  | inl e => (Rejected e, t ++ [SetTimeout 5000; GetVideosOperation operation])
  end%list.
Proof.
  intros D. simpl. rewrite D.
  unfold bind, sleep, emit, getVideosOperation, remote_call.
  destruct (operations_getVideosOperation ai _ operation);
    now rewrite <- app_assoc.
Qed.

(** The loop follows the answers of the endpoint round by round. *)
Lemma poll_follows (pending : list Operation) (last : JsError + Operation)
  (d : Operation) (rounds : nat) (t : Trace) :
  pending <> [] ->
  Forall (fun o => is_done o = false) pending ->
  polled ai t pending last ->
  List.length pending <= rounds ->
  poll ai rounds (hd d pending) t =
  match last with
  | inr final =>
      poll ai (rounds - List.length pending) final (t ++ poll_events pending)
  | inl e => (Rejected e, t ++ poll_events pending)
  end%list.
Proof.
  revert rounds t; induction pending as [|o tl IH]; intros rounds t NE P A L;
    [congruence|].
  destruct rounds as [|n]; [simpl in L; lia|].
  inversion P as [|? ? D P']; subst. destruct A as [A A'].
  simpl hd. rewrite (poll_round n o t D), A.
  destruct tl as [|o' tl'].
  - simpl. rewrite Nat.sub_0_r. destruct last; reflexivity.
  - simpl in L.
    specialize (IH n (t ++ [SetTimeout 5000; GetVideosOperation o])%list
                  ltac:(discriminate) P' A' ltac:(simpl; lia)).
    simpl hd in IH. rewrite IH.
    change (poll_events (o :: o' :: tl'))
      with ([SetTimeout 5000; GetVideosOperation o] ++ poll_events (o' :: tl'))%list.
    rewrite app_assoc. reflexivity.
Qed.



Lemma veo_body_run (rounds : nat) (params : VideoParams) (t : Trace) :
  veo_body ai rounds params t =
  match models_generateVideos ai t params with
  | inl e => (Rejected e, t ++ [GenerateVideos params])
  | inr submitted =>
      match poll ai rounds submitted (t ++ [GenerateVideos params]) with
      | (Fulfilled operation, t') => (locator_or_error operation, t')
      | (Rejected e, t') => (Rejected e, t')
      | (Unsettled, t') => (Unsettled, t')
      end
  end%list.
Proof.
  unfold veo_body, bind, generateVideos, remote_call, locator_or_error.
  destruct (models_generateVideos ai t params) as [e|submitted]; [reflexivity|].
  destruct (poll ai rounds submitted _) as [[operation|e|] t']; try reflexivity.
  destruct (result_uri operation) as [[|c u]|]; reflexivity.
Qed.

(** The [catch] of [generateVeoVideo] applied to what the body did. *)
Lemma generateVeoVideo_run (rounds : nat) (prompt : string)
  (inputImageBase64 inputImageMime : option string) (aspectRatio : AspectRatio)
  (t : Trace) :
  generateVeoVideo ai rounds prompt inputImageBase64 inputImageMime aspectRatio t =
  match veo_body ai rounds
          (veo_params prompt inputImageBase64 inputImageMime aspectRatio) t with
  | (Rejected e, t') =>
      (Rejected (if is_unavailable e then VEO_UNAVAILABLE else e), t')
  | settled => settled
  end.
Proof.
  unfold generateVeoVideo, try_catch.
  destruct (veo_body ai rounds _ t) as [[u|e|] t']; try reflexivity.
  now destruct (is_unavailable e).
Qed.


End Poller.



(** C10. The [catch] of [generateVeoVideo] covers the whole of submit, poll
    and extract: an error raised by the submission or by any poll is
    replaced by the Veo-not-available error when its message contains "404"
    or "not found", and is rethrown unchanged otherwise; the missing-URI
    error, whose message contains neither, is rethrown unchanged. *)
Theorem veo_error_translation (ai : Remote) (rounds : nat) (prompt : string)
  (inputImageBase64 inputImageMime : option string) (aspectRatio : AspectRatio)
  (t : Trace) (e : JsError) :
  let params := veo_params prompt inputImageBase64 inputImageMime aspectRatio in
  let run :=
    generateVeoVideo ai rounds prompt inputImageBase64 inputImageMime aspectRatio t in
  let translated := if is_unavailable e then VEO_UNAVAILABLE else e in
  (is_unavailable e = true <-> capability_unavailable e)
  /\
  (forall t', veo_body ai rounds params t = (Rejected e, t') ->
              run = (Rejected translated, t'))
  /\
  (models_generateVideos ai t params = inl e ->
   run = (Rejected translated, (t ++ [GenerateVideos params])%list))
  /\
  (forall pending d,
     pending <> [] ->
     models_generateVideos ai t params = inr (hd d pending) ->
     Forall (fun o => is_done o = false) pending ->
     polled ai (t ++ [GenerateVideos params])%list pending (inl e) ->
     List.length pending <= rounds ->
     run = (Rejected translated, (t ++ GenerateVideos params :: poll_events pending)%list))
  /\
  (e = NO_URI -> translated = NO_URI /\ NO_URI <> VEO_UNAVAILABLE).
Proof.
  intros params run translated. unfold run, translated.
  split; [apply is_unavailable_spec|].
  split; [|split; [|split]].
  - intros t' B. rewrite generateVeoVideo_run. fold params. now rewrite B.
  - intros S. rewrite generateVeoVideo_run, veo_body_run. fold params.
    now rewrite S.
  - intros pending d NE S P A L.
    rewrite generateVeoVideo_run, veo_body_run. fold params. rewrite S.
    rewrite (poll_follows ai pending (inl e) d rounds _ NE P A L).
    now rewrite <- app_assoc.
  - intros ->. split; [reflexivity | discriminate].
Qed.

Lemma veo_error_translation_witness :
  let e := Error "operation not found" in
  let ai := Sample.video_job (inr Sample.running) [inr Sample.still_running; inl e] in
  generateVeoVideo ai 5 "a cat" None None Landscape16x9 [] =
  (Rejected VEO_UNAVAILABLE,
   [GenerateVideos (veo_params "a cat" None None Landscape16x9);
    SetTimeout 5000; GetVideosOperation Sample.running;
    SetTimeout 5000; GetVideosOperation Sample.still_running]).
Proof.
  intros e ai.
  apply (proj1 (proj2 (proj2 (proj2
           (veo_error_translation ai 5 "a cat" None None Landscape16x9 [] e))))
           [Sample.running; Sample.still_running] Sample.running).
  - discriminate.
  - reflexivity.
  - repeat constructor.
  - simpl. repeat split.
  - simpl. lia.
Defined.

(* ================================================================== *)
(** ** The three phases that go through the fallback helper *)

Section ProPhases.

Variable ai : Remote.

(** [try { r = await body; return f(r) } catch (e) { console.error(label, e); throw e }] *)
Lemma logged_rethrow {A : Type} (body : Async Response) (f : Response -> A)
  (label : string) (t : Trace) :
  try_catch (response <- body ;; ret (f response))
    (fun error => emit (ConsoleError label error) ;;; throw error) t =
  match body t with
  | (Fulfilled response, t') => (Fulfilled (f response), t')
  | (Rejected e, t') => (Rejected e, (t' ++ [ConsoleError label e])%list)
  | (Unsettled, t') => (Unsettled, t')
  end.
Proof.
  unfold try_catch, bind, ret, emit, throw.
  destruct (body t) as [[response|e|] t']; reflexivity.
Qed.

Lemma sources_of_In (chunks : list GroundingChunk) (s : Source) :
  In s (sources_of chunks) <->
  exists c w,
    In c chunks /\ web c = Some w /\ web_uri w = Some (source_uri s)
    /\ source_uri s <> "" /\ title s = web_title w.
Proof.
  induction chunks as [|c tl IH]; simpl.
  - split; [intros [] | intros (c & w & [] & _)].
  - destruct (web c) as [w|] eqn:W.
    + destruct (web_uri w) as [[|a u]|] eqn:U.
      * rewrite IH. split.
        -- intros (c' & w' & I & R). exists c', w'. auto.
        -- intros (c' & w' & [<-|I] & W' & U' & N & T).
           ++ rewrite W in W'. injection W' as <-. congruence.
           ++ exists c', w'. auto.
      * simpl. rewrite IH. split.
        -- intros [<-|(c' & w' & I & R)].
           ++ exists c, w. simpl. repeat split; auto. discriminate.
           ++ exists c', w'. auto.
        -- intros (c' & w' & [<-|I] & W' & U' & N & T).
           ++ left. rewrite W in W'. injection W' as <-.
              rewrite U in U'. injection U' as U'.
              destruct s as [ti su]. simpl in *. now subst.
           ++ right. exists c', w'. auto.
      * rewrite IH. split.
        -- intros (c' & w' & I & R). exists c', w'. auto.
        -- intros (c' & w' & [<-|I] & W' & U' & N & T).
           ++ rewrite W in W'. injection W' as <-. congruence.
           ++ exists c', w'. auto.
    + rewrite IH. split.
      * intros (c' & w' & I & R). exists c', w'. auto.
      * intros (c' & w' & [<-|I] & W' & R).
        -- congruence.
        -- exists c', w'. auto.
Qed.

Lemma sources_of_length (chunks : list GroundingChunk) :
  List.length (sources_of chunks) <= List.length chunks.
Proof.
  induction chunks as [|c tl IH]; simpl; [lia|].
  destruct (web c) as [w|]; [|lia].
  destruct (web_uri w) as [[|a u]|]; simpl; lia.
Qed.

Lemma truthy_or_not_empty (x : option string) (d : string) :
  d <> "" -> truthy_or x d <> "".
Proof. destruct x as [[|c s]|]; simpl; [auto | discriminate | auto]. Qed.

End ProPhases.

(** X1. When the generation call of the Authoring phase succeeds,
    [finalizeStudyPackage] returns notes that are never empty (the response
    text, or "No content generated." when the text is missing or empty)
    and an empty [simulatorCode]; the simulator shown for such a result is
    whatever html fence the notes themselves hold. *)
Theorem authoring_result (ai : Remote) (approvedPlan originalInput : string)
  (t t' : Trace) (resp : Response) :
  generateContentWithFallback ai PRO_PREVIEW
    (finalize_params approvedPlan originalInput) t = (Fulfilled resp, t') ->
  exists r,
    finalizeStudyPackage ai approvedPlan originalInput t = (Fulfilled r, t')
    /\ simulatorCode r = ""
    /\ markdown r <> ""
    /\ (forall txt, text resp = Some txt -> txt <> "" -> markdown r = txt)
    /\ (text resp = None \/ text resp = Some "" ->
        markdown r = "No content generated.")
    /\ StudyArchitect.shownSimulatorCode (Some r)
       = StudyArchitect.extractSimulatorCode (markdown r).
Proof.
  intros H. unfold finalizeStudyPackage. rewrite logged_rethrow, H.
  eexists. split; [reflexivity|]. simpl. repeat split.
  - apply truthy_or_not_empty. discriminate.
  - intros txt -> N. now apply truthy_or_nonempty.
  - intros [-> | ->]; reflexivity.
Qed.

Lemma authoring_result_witness :
  exists r,
    finalizeStudyPackage (Sample.answering None) "plan" "Photosynthesis" []
    = (Fulfilled r,
       [GenerateContent {| model := PRO_PREVIEW;
                           payload := finalize_params "plan" "Photosynthesis" |}])
    /\ markdown r = "No content generated.".
Proof.
  destruct (authoring_result (Sample.answering None) "plan" "Photosynthesis" []
              [GenerateContent {| model := PRO_PREVIEW;
                                  payload := finalize_params "plan" "Photosynthesis" |}]
              {| text := None; candidates := [] |} eq_refl)
    as (r & R & _ & _ & _ & D & _).
  exists r. split; [exact R | apply D; now left].
Defined.

(** X2. An error that leaves the fallback helper is logged once, under the
    label of the phase, and rethrown unchanged by [analyzeStudyTopic],
    [finalizeStudyPackage] and [generateStudySimulator]: none of them
    swallows or rewrites it. *)
Theorem pro_phases_rethrow (ai : Remote) (t t' : Trace) (e : JsError)
  (input approvedPlan originalInput smartNotes : string)
  (mediaData : option (string * string)) (isVideoAnalysis : bool)
  (searchContext : option string) :
  (generateContentWithFallback ai PRO_PREVIEW
     (analyze_params input mediaData isVideoAnalysis searchContext) t
   = (Rejected e, t') ->
   analyzeStudyTopic ai input mediaData isVideoAnalysis searchContext t
   = (Rejected e, (t' ++ [ConsoleError "Study Analysis Error:" e])%list))
  /\
  (generateContentWithFallback ai PRO_PREVIEW
     (finalize_params approvedPlan originalInput) t
   = (Rejected e, t') ->
   finalizeStudyPackage ai approvedPlan originalInput t
   = (Rejected e, (t' ++ [ConsoleError "Study Build Error:" e])%list))
  /\
  (generateContentWithFallback ai PRO_PREVIEW
     (simulator_params approvedPlan smartNotes) t
   = (Rejected e, t') ->
   generateStudySimulator ai approvedPlan smartNotes t
   = (Rejected e, (t' ++ [ConsoleError "Simulator Gen Error:" e])%list)).
Proof.
  repeat split; intros H.
  - unfold analyzeStudyTopic. now rewrite logged_rethrow, H.
  - unfold finalizeStudyPackage. now rewrite logged_rethrow, H.
  - unfold generateStudySimulator. now rewrite logged_rethrow, H.
Qed.

Lemma pro_phases_rethrow_witness :
  let e := Error "429 quota exceeded" in
  finalizeStudyPackage (Sample.failing e) "plan" "Photosynthesis" []
  = (Rejected e,
     [GenerateContent {| model := PRO_PREVIEW;
                         payload := finalize_params "plan" "Photosynthesis" |};
      ConsoleError "Study Build Error:" e]).
Proof.
  intros e.
  apply (proj1 (proj2 (pro_phases_rethrow (Sample.failing e) []
                         [GenerateContent {| model := PRO_PREVIEW;
                                             payload := finalize_params "plan" "Photosynthesis" |}]
                         e "" "plan" "Photosynthesis" "" None false None))).
  reflexivity.
Defined.

(** X3. When the generation call of the Analyzing phase succeeds, the plan
    text is never empty and the sources are exactly the grounding chunks of
    the first candidate that carry a non-empty web URI, each with its
    title: no source without a URI is ever returned. *)
Theorem analysis_sources (ai : Remote) (input : string)
  (mediaData : option (string * string)) (isVideoAnalysis : bool)
  (searchContext : option string) (t t' : Trace) (resp : Response) :
  generateContentWithFallback ai PRO_PREVIEW
    (analyze_params input mediaData isVideoAnalysis searchContext) t
  = (Fulfilled resp, t') ->
  exists plan,
    analyzeStudyTopic ai input mediaData isVideoAnalysis searchContext t
    = (Fulfilled plan, t')
    /\ markdownPlan plan <> ""
    /\ Forall (fun s => source_uri s <> "") (sources plan)
    /\ (forall s,
          In s (sources plan) <->
          exists c w,
            In c (chunks_of resp) /\ web c = Some w
            /\ web_uri w = Some (source_uri s) /\ source_uri s <> ""
            /\ title s = web_title w)
    /\ List.length (sources plan) <= List.length (chunks_of resp).
Proof.
  intros H. unfold analyzeStudyTopic. rewrite logged_rethrow, H.
  eexists. split; [reflexivity|]. simpl. repeat split.
  - apply truthy_or_not_empty. discriminate.
  - apply Forall_forall. intros s I. apply sources_of_In in I.
    now destruct I as (c & w & _ & _ & _ & N & _).
  - apply sources_of_In.
  - apply sources_of_In.
  - apply sources_of_length.
Qed.

Lemma analysis_sources_witness :
  let cited := {| web := Some {| web_title := Some "Wikipedia";
                                 web_uri := Some "https://en.wikipedia.org" |} |} in
  let bare := {| web := Some {| web_title := Some "No link"; web_uri := None |} |} in
  let resp := {| text := Some "## Plan";
                 candidates := [ {| groundingChunks := Some [bare; cited] |} ] |} in
  let ai := {| models_generateContent := fun _ _ => inr resp;
               models_generateVideos := Sample.no_videos;
               operations_getVideosOperation := Sample.no_operations |} in
  exists plan,
    fst (analyzeStudyTopic ai "Photosynthesis" None false None []) = Fulfilled plan
    /\ Forall (fun s => source_uri s <> "") (sources plan)
    /\ List.length (sources plan) <= 2.
Proof.
  intros cited bare resp ai.
  destruct (analysis_sources ai "Photosynthesis" None false None []
              (snd (generateContentWithFallback ai PRO_PREVIEW
                      (analyze_params "Photosynthesis" None false None) []))
              resp eq_refl) as (plan & R & _ & F & _ & L).
  exists plan. rewrite R. auto.
Defined.

(* ================================================================== *)
(** ** The study screen *)

Section StudyScreen.

Import StudyArchitect.

Lemma remove_fence_eq (opening s : string) :
  remove_fence opening s =
  match
    match strip_prefix opening s with
    | Some rest => option_map snd (split_first FENCE rest)
    | None => None
    end
  with
  | Some after => after
  | None =>
      match s with
      | EmptyString => EmptyString
      | String c s' => String c (remove_fence opening s')
      end
  end.
Proof. destruct s; reflexivity. Qed.

(** What [match] captures and what [replace] leaves fit together. *)
Lemma match_and_remove (opening s : string) :
  match match_fence opening s with
  | Some code =>
      exists pre post,
        s = pre ++ opening ++ code ++ FENCE ++ post
        /\ remove_fence opening s = pre ++ post
  | None => remove_fence opening s = s
  end.
Proof.
  induction s as [|c s IH]; rewrite match_fence_eq, remove_fence_eq.
  - destruct (strip_prefix opening "") as [rest|] eqn:P; [|reflexivity].
    destruct (split_first FENCE rest) as [[b r]|] eqn:R; simpl; [|reflexivity].
    apply strip_prefix_Some in P. apply split_first_sound in R.
    destruct R as [E _]. exists "", r. simpl. now rewrite P, E.
  - destruct (strip_prefix opening (String c s)) as [rest|] eqn:P.
    + destruct (split_first FENCE rest) as [[b r]|] eqn:R; simpl.
      * apply strip_prefix_Some in P. apply split_first_sound in R.
        destruct R as [E _]. exists "", r. simpl. now rewrite P, E.
      * destruct (match_fence opening s) as [code|].
        -- destruct IH as (pre & post & E & K).
           exists (String c pre), post. simpl. now rewrite K, E at 1.
        -- now rewrite IH.
    + simpl. destruct (match_fence opening s) as [code|].
      * destruct IH as (pre & post & E & K).
        exists (String c pre), post. simpl. now rewrite K, E at 1.
      * now rewrite IH.
Qed.

Ltac divmod := zify; Z.to_euclidean_division_equations; lia.

Lemma byte_chr (n : N) : (n < 256)%N -> byte (ascii_of_N n) = n.
Proof. apply N_ascii_embedding. Qed.

(** A lone surrogate reads back as the code unit it was written from. *)
Lemma code_units_lone (h : N) :
  (55296 <= h < 57344)%N -> code_units (lone_surrogate h) = [h].
Proof.
  intros H. unfold lone_surrogate. cbn [code_units].
  change (byte (ascii_of_N 237)) with 237%N.
  change (237 <? 192)%N with false. change (237 <? 224)%N with false.
  change (237 <? 240)%N with true. cbv iota.
  unfold unit3. change (byte (ascii_of_N 237)) with 237%N.
  rewrite !byte_chr by divmod.
  f_equal. change (237 mod 16)%N with 13%N. divmod.
Qed.

Lemma high_surrogate_range (c1 c2 c3 c4 : ascii) :
  (55296 <= high_surrogate c1 c2 c3 c4 < 57344)%N.
Proof. unfold high_surrogate, astral. divmod. Qed.

(** The slice holds the first [n] code units, exactly. *)
Lemma slice_units_spec (k : nat) :
  forall s n, String.length s <= k ->
    code_units (slice_units n s) = firstn n (code_units s).
Proof.
  induction k as [|k IH]; intros s n L.
  - destruct s; [|simpl in L; lia]. now destruct n.
  - destruct n as [|n]; [reflexivity|].
    destruct s as [|c1 r1]; [reflexivity|].
    cbn [slice_units code_units].
    destruct (byte c1 <? 192)%N eqn:T1.
    + cbn [code_units]. rewrite T1. cbn [firstn]. f_equal.
      apply IH. simpl in L. lia.
    + destruct (byte c1 <? 224)%N eqn:T2.
      * destruct r1 as [|c2 r2].
        -- cbn [code_units]. rewrite T1, T2. cbn [firstn]. now rewrite firstn_nil.
        -- cbn [code_units]. rewrite T1, T2. cbn [firstn]. f_equal.
           apply IH. simpl in L. lia.
      * destruct (byte c1 <? 240)%N eqn:T3.
        -- destruct r1 as [|c2 [|c3 r3]];
             cbn [code_units]; rewrite T1, T2, T3; cbn [firstn];
             try (now rewrite firstn_nil).
           f_equal. apply IH. simpl in L. lia.
        -- destruct r1 as [|c2 [|c3 [|c4 r4]]];
             try (cbn [code_units]; rewrite T1, T2, T3; cbn [firstn];
                  now rewrite firstn_nil).
           destruct n as [|n].
           ++ rewrite code_units_lone by apply high_surrogate_range. reflexivity.
           ++ cbn [code_units]. rewrite T1, T2, T3. cbn [firstn]. do 2 f_equal.
              apply IH. simpl in L. lia.
Qed.

(** A string of at most [n] code units is its own slice. *)
Lemma slice_units_all (k : nat) :
  forall s n, String.length s <= k -> List.length (code_units s) <= n ->
    slice_units n s = s.
Proof.
  induction k as [|k IH]; intros s n L U.
  - destruct s; [|simpl in L; lia]. now destruct n.
  - destruct s as [|c1 r1]; [now destruct n|].
    revert U. cbn [code_units].
    destruct n as [|n].
    + destruct (byte c1 <? 192)%N; [simpl; lia|].
      destruct (byte c1 <? 224)%N; [destruct r1; simpl; lia|].
      destruct (byte c1 <? 240)%N;
        [destruct r1 as [|c2 [|c3 r3]]; simpl; lia|].
      destruct r1 as [|c2 [|c3 [|c4 r4]]]; simpl; lia.
    + cbn [slice_units].
      destruct (byte c1 <? 192)%N.
      { intros U. f_equal. apply IH; simpl in *; lia. }
      destruct (byte c1 <? 224)%N.
      { destruct r1 as [|c2 r2]; [reflexivity|]. intros U. do 2 f_equal.
        apply IH; simpl in *; lia. }
      destruct (byte c1 <? 240)%N.
      { destruct r1 as [|c2 [|c3 r3]]; try reflexivity. intros U. do 3 f_equal.
        apply IH; simpl in *; lia. }
      destruct r1 as [|c2 [|c3 [|c4 r4]]]; try reflexivity. intros U.
      destruct n as [|n]; [simpl in U; lia|]. do 4 f_equal.
      apply IH; simpl in *; lia.
Qed.

Lemma slice0_units (n : N) (s : string) :
  code_units (slice0 n s) = firstn (N.to_nat n) (code_units s).
Proof. apply (slice_units_spec (String.length s)). lia. Qed.

Lemma slice0_all (n : N) (s : string) :
  (N.of_nat (List.length (code_units s)) <= n)%N -> slice0 n s = s.
Proof. intros L. apply (slice_units_all (String.length s)); lia. Qed.

Lemma code_units_nonempty (s : string) : s <> "" -> code_units s <> [].
Proof.
  destruct s as [|c1 r1]; [congruence|]. intros _. cbn [code_units].
  destruct (byte c1 <? 192)%N; [discriminate|].
  destruct (byte c1 <? 224)%N; [destruct r1; discriminate|].
  destruct (byte c1 <? 240)%N;
    [destruct r1 as [|c2 [|c3 r3]]; discriminate|].
  destruct r1 as [|c2 [|c3 [|c4 r4]]]; discriminate.
Qed.

Lemma string_of_list_length (l : list ascii) :
  String.length (string_of_list_ascii l) = List.length l.
Proof. induction l as [|c l IH]; simpl; congruence. Qed.

Lemma underscored_length (s : string) :
  String.length (underscored s) = List.length (code_units s).
Proof.
  unfold underscored. now rewrite string_of_list_length, length_map.
Qed.

Lemma underscored_safe (s : string) (c : ascii) :
  In c (list_ascii_of_string (underscored s)) -> is_alnum c = true \/ c = "_"%char.
Proof.
  unfold underscored. rewrite list_ascii_of_string_of_list_ascii.
  intros I. apply in_map_iff in I. destruct I as (u & <- & _).
  unfold underscore_unit.
  destruct ((u <? 128)%N && is_alnum (ascii_of_N u)) eqn:A; [|now right].
  apply andb_true_iff in A. now left.
Qed.

Lemma is_alnum_ascii (c : ascii) : is_alnum c = true -> (byte c < 128)%N.
Proof.
  unfold is_alnum, byte, nat_of_ascii. intros H.
  repeat (apply orb_true_iff in H; destruct H as [H|H]);
    apply andb_true_iff in H; destruct H as [_ H];
    apply Nat.leb_le in H; lia.
Qed.

Lemma underscore_unit_alnum (c : ascii) :
  is_alnum c = true -> underscore_unit (byte c) = c.
Proof.
  intros A. unfold underscore_unit, byte.
  rewrite ascii_N_embedding, A.
  apply is_alnum_ascii, N.ltb_lt in A. unfold byte in A. now rewrite A.
Qed.

Lemma alnum_units (s : string) :
  (forall c, In c (list_ascii_of_string s) -> is_alnum c = true) ->
  code_units s = map byte (list_ascii_of_string s).
Proof.
  induction s as [|c s IH]; intros H; [reflexivity|].
  cbn [code_units list_ascii_of_string map].
  assert (T : (byte c <? 192)%N = true).
  { apply N.ltb_lt. pose proof (is_alnum_ascii c (H c (or_introl eq_refl))). lia. }
  rewrite T, IH; [reflexivity|]. intros x I. apply H. now right.
Qed.

(** A title of letters and digits within the bound goes through the slice
    and the replacement unchanged. *)
Lemma underscored_slice_alnum (n : N) (s : string) :
  String.length s <= N.to_nat n ->
  (forall c, In c (list_ascii_of_string s) -> is_alnum c = true) ->
  underscored (slice0 n s) = s.
Proof.
  intros L A. unfold underscored.
  assert (E : List.length (list_ascii_of_string s) = String.length s)
    by (clear; induction s; simpl; congruence).
  rewrite slice0_units, (alnum_units s A).
  rewrite firstn_all2 by (rewrite length_map; lia).
  rewrite map_map.
  rewrite <- (string_of_list_ascii_of_string s) at 2. f_equal.
  rewrite <- (map_id (list_ascii_of_string s)) at 2.
  apply map_ext_in. intros c I. now apply underscore_unit_alnum, A.
Qed.

Lemma concat_contains (sep : string) (names : list string) (x : string) :
  In x names -> contains x (String.concat sep names).
Proof.
  induction names as [|y tl IH]; intros I; [destruct I|].
  destruct tl as [|z tl'].
  - destruct I as [<-|[]]. exists "", "". simpl.
    clear IH. induction y; simpl; congruence.
  - change (String.concat sep (y :: z :: tl'))
      with (y ++ sep ++ String.concat sep (z :: tl')).
    destruct I as [<-|I].
    + exists "", (sep ++ String.concat sep (z :: tl')). reflexivity.
    + destruct (IH I) as (p & q & E). exists (y ++ sep ++ p), q.
      rewrite E. now rewrite !append_assoc.
Qed.


Lemma remove_fence_first (opening s pre rest inner post : string) :
  first_occurrence opening s pre rest ->
  first_occurrence FENCE rest inner post ->
  remove_fence opening s = pre ++ post.
Proof.
  intros F C. apply split_first_complete in C.
  revert s F; induction pre as [|c pre IH]; intros s [E M];
    rewrite remove_fence_eq.
  - simpl in E. rewrite E, strip_prefix_append, C. reflexivity.
  - destruct (strip_prefix opening s) eqn:P.
    + apply strip_prefix_Some in P.
      specialize (M EmptyString s0 P). simpl in M. lia.
    + rewrite E. simpl. f_equal. apply IH. split; [reflexivity|].
      intros p q Hs. apply le_S_n.
      apply (M (String c p) q). rewrite E. simpl. now rewrite Hs.
Qed.

Lemma no_backtick_first (pat' pre rest : string) :
  no_backtick pre = true ->
  first_occurrence (String "`" pat') (pre ++ String "`" pat' ++ rest) pre rest.
Proof.
  intros N. split; [reflexivity|].
  induction pre as [|c pre IH]; intros p q E; simpl; [lia|].
  simpl in N. apply andb_true_iff in N. destruct N as [C N].
  destruct p as [|y p]; simpl in E.
  - injection E as -> _. now rewrite Ascii.eqb_refl in C.
  - injection E as _ E. apply le_n_S. now apply (IH N p q).
Qed.

End StudyScreen.

(** X5. The code shown in the simulator tab and the notes shown beside it
    split the markdown without loss: when [extractSimulatorCode] finds code,
    the markdown is the displayed text with the html fence of that code
    put back at one place; when it finds none, the displayed text is the
    markdown itself. *)
Theorem notes_and_code_partition (r : StudyResult) :
  match StudyArchitect.extractSimulatorCode (markdown r) with
  | Some code =>
      exists pre post,
        markdown r = pre ++ "```html" ++ code ++ FENCE ++ post
        /\ StudyArchitect.displayText (Some r) = pre ++ post
  | None => StudyArchitect.displayText (Some r) = markdown r
  end.
Proof.
  unfold StudyArchitect.extractSimulatorCode, StudyArchitect.displayText.
  apply match_and_remove.
Qed.

(** X6. The stem of an export file name is never empty, is at most 20
    characters long and holds only ASCII letters, digits and underscores;
    a title of at most 20 letters and digits is kept as it is, and an
    empty title gives "Notes". *)
Theorem export_name_is_safe (inputText : string) :
  let stem := StudyArchitect.export_stem inputText in
  stem <> ""
  /\ String.length stem <= 20
  /\ (forall c, In c (list_ascii_of_string stem) ->
                StudyArchitect.is_alnum c = true \/ c = "_"%char)
  /\ (inputText <> "" -> String.length inputText <= 20 ->
      (forall c, In c (list_ascii_of_string inputText) ->
                 StudyArchitect.is_alnum c = true) ->
      stem = inputText)
  /\ (inputText = "" -> stem = "Notes")
  /\ StudyArchitect.pdf_filename inputText = "StudySim_" ++ stem ++ ".pdf"
  /\ StudyArchitect.doc_filename inputText = "StudySim_" ++ stem ++ ".doc".
Proof.
  cbv zeta. unfold StudyArchitect.export_stem.
  assert (NE : truthy_or (Some inputText) "Notes" <> "")
    by (apply truthy_or_not_empty; discriminate).
  assert (Len : String.length
                  (StudyArchitect.underscored
                     (slice0 20 (truthy_or (Some inputText) "Notes")))
                = Nat.min 20 (List.length (code_units (truthy_or (Some inputText) "Notes")))).
  { rewrite underscored_length, slice0_units, length_firstn. reflexivity. }
  apply code_units_nonempty in NE.
  repeat split.
  - intros E. rewrite E in Len.
    destruct (code_units (truthy_or (Some inputText) "Notes")); [congruence|].
    simpl in Len. lia.
  - rewrite Len. lia.
  - apply underscored_safe.
  - intros N L A. rewrite (truthy_or_nonempty inputText _ N).
    now apply underscored_slice_alnum.
  - intros ->. reflexivity.
Qed.

Lemma export_name_is_safe_witness :
  StudyArchitect.export_stem "Photosynthesis101" = "Photosynthesis101"
  /\ StudyArchitect.pdf_filename "C++ & Rust: a (very) long comparison"
     = "StudySim_C_____Rust__a__very_.pdf".
Proof.
  split.
  - apply (proj1 (proj2 (proj2 (proj2 (export_name_is_safe "Photosynthesis101"))))).
    + discriminate.
    + simpl. lia.
    + intros c I. simpl in I.
      repeat (destruct I as [<-|I]; [reflexivity|]). destruct I.
  - reflexivity.
Defined.



(** X8. Every attached file is named in the text sent for analysis,
    whether or not its content is sent: the combined input starts with the
    typed text and, when files are attached, holds the name of each. *)
Theorem attachments_are_named (inputText : string) (files : list StudyArchitect.File) :
  (exists rest, StudyArchitect.combinedInput inputText files = inputText ++ rest)
  /\ (files = [] -> StudyArchitect.combinedInput inputText files = inputText)
  /\ (forall f, In f files ->
        contains (StudyArchitect.file_name f)
          (StudyArchitect.combinedInput inputText files)).
Proof.
  unfold StudyArchitect.combinedInput. repeat split.
  - eexists. reflexivity.
  - intros ->. clear. induction inputText; simpl; congruence.
  - intros f I. destruct files as [|g tl]; [destruct I|].
    assert (C : contains (StudyArchitect.file_name f)
                  (String.concat ", " (map StudyArchitect.file_name (g :: tl)))).
    { apply concat_contains. now apply in_map. }
    destruct C as (p & q & E). rewrite E.
    exists (inputText ++ StudyArchitect.LF ++ StudyArchitect.LF
            ++ "[Attached Files: " ++ p), (q ++ "]").
    now rewrite !append_assoc.
Qed.

Lemma attachments_are_named_witness :
  let note := {| StudyArchitect.file_name := "voice_note.webm";
                 StudyArchitect.file_type := "audio/webm";
                 StudyArchitect.file_base64 := "GkXfo59ChoEB" |} in
  contains "voice_note.webm" (StudyArchitect.combinedInput "Explain this" [note]).
Proof.
  intros note.
  apply (proj2 (proj2 (attachments_are_named "Explain this" [note])) note).
  now left.
Defined.

(** X9. A payload wrapped in a fence survives the unwrapping unchanged,
    whatever prose surrounds it, as long as neither the payload nor the
    text before the fence holds a backtick: [cleaned] gives back the
    payload of a [json] fence, [simulator_code] and [extractSimulatorCode]
    the payload of an [html] fence, and the displayed text is the prose
    without the fence. *)
Theorem fenced_payload_round_trip (pre payload post : string) :
  no_backtick pre = true ->
  no_backtick payload = true ->
  cleaned (Some (pre ++ "```json" ++ payload ++ FENCE ++ post)) = payload
  /\ simulator_code (Some (pre ++ "```html" ++ payload ++ FENCE ++ post)) = payload
  /\ StudyArchitect.extractSimulatorCode (pre ++ "```html" ++ payload ++ FENCE ++ post)
     = Some payload
  /\ StudyArchitect.remove_fence "```html" (pre ++ "```html" ++ payload ++ FENCE ++ post)
     = pre ++ post.
Proof.
  intros NP NY.
  pose proof (no_backtick_first "``" payload post NY) as C.
  change (String "`" "``") with FENCE in C.
  assert (M : forall tag,
             match_fence (String "`" ("``" ++ tag))
               (pre ++ String "`" ("``" ++ tag) ++ payload ++ FENCE ++ post)
             = Some payload).
  { intros tag.
    apply (match_fence_first _ _ pre (payload ++ FENCE ++ post) payload post);
      [|exact C].
    apply (no_backtick_first ("``" ++ tag) pre _ NP). }
  repeat split.
  - unfold cleaned. rewrite truthy_or_nonempty.
    + change "```json" with (String "`" ("``" ++ "json")). now rewrite M.
    + destruct pre; discriminate.
  - unfold simulator_code. rewrite truthy_or_empty.
    change "```html" with (String "`" ("``" ++ "html")). now rewrite M.
  - apply (M "html").
  - apply (remove_fence_first _ _ pre (payload ++ FENCE ++ post) payload post);
      [|exact C].
    apply (no_backtick_first "``html" pre _ NP).
Qed.

Lemma fenced_payload_round_trip_witness :
  cleaned (Some ("Here is the JSON you asked for: ```json{}``` Anything else?")) = "{}".
Proof.
  apply (proj1 (fenced_payload_round_trip "Here is the JSON you asked for: " "{}"
                  " Anything else?" eq_refl eq_refl)).
Defined.

(* ================================================================== *)
(** ** Chat, audio and images *)

Section SdkCalls.

Variable ai : Sdk.Remote.

Lemma sdk_fallback_run (model : string) (params : Sdk.Params) (t : Sdk.Trace) :
  let primary := {| Sdk.model := model; Sdk.payload := params |} in
  let secondary := {| Sdk.model := FLASH; Sdk.payload := params |} in
  let warning :=
    Sdk.ConsoleWarn ("Model " ++ model ++ " failed, falling back to gemini-2.5-flash") in
  Sdk.generateContentWithFallback ai model params t =
  match Sdk.models_generateContent ai t primary with
  | inr response => (Fulfilled response, t ++ [Sdk.GenerateContent primary])
  | inl e =>
      if is_unavailable e then
        let warned := t ++ [Sdk.GenerateContent primary; warning] in
        (match Sdk.models_generateContent ai warned secondary with
         | inr response => Fulfilled response
         | inl e' => Rejected e'
         end, warned ++ [Sdk.GenerateContent secondary])
      else (Rejected e, t ++ [Sdk.GenerateContent primary])
  end%list.
Proof.
  unfold Sdk.generateContentWithFallback, Sdk.try_catch, Sdk.generateContent.
  cbv zeta.
  destruct (Sdk.models_generateContent ai t _) as [e|response]; [|reflexivity].
  destruct (is_unavailable e); [|reflexivity].
  unfold Sdk.bind, Sdk.emit. rewrite <- app_assoc. simpl.
  now destruct (Sdk.models_generateContent ai _ _).
Qed.

(** A function that awaits one call and maps the response. *)
Lemma sdk_single_call {A : Type} (req : Sdk.Request)
  (k : Sdk.Response -> Sdk.Async A) (t : Sdk.Trace) :
  Sdk.bind (Sdk.generateContent ai req) k t =
  match Sdk.models_generateContent ai t req with
  | inr response => k response (t ++ [Sdk.GenerateContent req])%list
  | inl e => (Rejected e, (t ++ [Sdk.GenerateContent req])%list)
  end.
Proof.
  unfold Sdk.bind, Sdk.generateContent.
  now destruct (Sdk.models_generateContent ai t req).
Qed.

Lemma first_inline_found (texts : list string) (data mime : string) (after : list Part) :
  Sdk.first_inline (map TextPart texts ++ InlineData data mime :: after) = Some data.
Proof. induction texts as [|x tl IH]; simpl; auto. Qed.

Lemma first_inline_none (ps : list Part) :
  (forall p, In p ps -> exists txt, p = TextPart txt) ->
  Sdk.first_inline ps = None.
Proof.
  induction ps as [|p tl IH]; intros H; [reflexivity|].
  destruct (H p (or_introl eq_refl)) as [txt ->]. simpl.
  apply IH. intros q I. apply H. now right.
Qed.

Lemma calls_app (a b : Sdk.Trace) :
  Sdk.calls (a ++ b)%list = (Sdk.calls a ++ Sdk.calls b)%list.
Proof. apply flat_map_app. Qed.

Lemma skipn_issued {A : Type} (t issued : list A) :
  skipn (List.length t) (t ++ issued) = issued.
Proof. now rewrite skipn_app, skipn_all, Nat.sub_diag. Qed.

End SdkCalls.



(** X11. The study notes enter a prompt only as a bounded slice: the
    quiz prompt holds exactly the first 10000 UTF-16 code units of the
    notes and the deep-dive system prompt exactly the first 5000, between
    the fixed text of the prompt for empty notes; notes of no more code
    units than the bound are embedded unchanged. *)
Theorem prompt_context_is_bounded (context : string) :
  (exists before shown after,
     quiz_prompt context = before ++ shown ++ after
     /\ quiz_prompt "" = before ++ after
     /\ code_units shown = firstn (N.to_nat 10000) (code_units context)
     /\ ((N.of_nat (List.length (code_units context)) <= 10000)%N -> shown = context))
  /\
  (exists before shown after,
     Sdk.deepdive_prompt context = before ++ shown ++ after
     /\ Sdk.deepdive_prompt "" = before ++ after
     /\ code_units shown = firstn (N.to_nat 5000) (code_units context)
     /\ ((N.of_nat (List.length (code_units context)) <= 5000)%N -> shown = context)).
Proof.
  assert (Z : forall n : N, slice0 n "" = "")
    by (intros n; unfold slice0; now destruct (N.to_nat n)).
  split.
  - unfold quiz_prompt. rewrite Z.
    eexists _, (slice0 10000 context), _.
    split; [reflexivity|]. split; [reflexivity|]. split.
    + now rewrite slice0_units.
    + apply slice0_all.
  - unfold Sdk.deepdive_prompt. rewrite Z.
    match goal with
    | |- exists b s a,
           ?x1 ++ ?x2 ++ ?x3 ++ ?x4 ++ ?x5 ++ slice0 5000 context ++ ?y = _ /\ _ =>
        exists (x1 ++ x2 ++ x3 ++ x4 ++ x5), (slice0 5000 context), y
    end.
    split; [now rewrite !append_assoc|]. split; [now rewrite !append_assoc|].
    split.
    + now rewrite slice0_units.
    + apply slice0_all.
Qed.

Lemma prompt_context_is_bounded_witness :
  exists before after,
    quiz_prompt "Chlorophyll absorbs light."
    = before ++ "Chlorophyll absorbs light." ++ after
    /\ quiz_prompt "" = before ++ after.
Proof.
  destruct (proj1 (prompt_context_is_bounded "Chlorophyll absorbs light."))
    as (before & shown & after & P & P0 & _ & W).
  exists before, after. rewrite <- (W ltac:(vm_compute; discriminate)) at 2.
  auto.
Defined.

(** X12. [queryDeepDive], [transcribeAudio] and [editImage] issue exactly
    one generation call and have no fallback: an error of that call, also
    a capability-unavailable one, reaches the caller unchanged.  On
    success a chat reply is never empty (a missing or empty text becomes
    "I couldn't generate a response."), while a transcription may be. *)
Theorem direct_calls_do_not_fall_back (ai : Sdk.Remote) (t : Sdk.Trace)
  (history : list Sdk.DeepDiveMessage) (context userMessage : string)
  (base64 mimeType prompt : string) :
  let chat := Sdk.deepdive_request history context userMessage in
  let audio := Sdk.transcribe_request base64 mimeType in
  let edit := Sdk.edit_request base64 mimeType prompt in
  (snd (Sdk.queryDeepDive ai history context userMessage t)
   = (t ++ [Sdk.GenerateContent chat])%list
   /\ snd (Sdk.transcribeAudio ai base64 mimeType t)
      = (t ++ [Sdk.GenerateContent audio])%list
   /\ snd (Sdk.editImage ai base64 mimeType prompt t)
      = (t ++ [Sdk.GenerateContent edit])%list)
  /\
  (forall e,
     Sdk.models_generateContent ai t chat = inl e ->
     fst (Sdk.queryDeepDive ai history context userMessage t) = Rejected e)
  /\
  (forall e,
     Sdk.models_generateContent ai t audio = inl e ->
     fst (Sdk.transcribeAudio ai base64 mimeType t) = Rejected e)
  /\
  (forall e,
     Sdk.models_generateContent ai t edit = inl e ->
     fst (Sdk.editImage ai base64 mimeType prompt t) = Rejected e)
  /\
  (forall resp,
     Sdk.models_generateContent ai t chat = inr resp ->
     exists reply,
       fst (Sdk.queryDeepDive ai history context userMessage t) = Fulfilled reply
       /\ reply <> ""
       /\ (forall txt, Sdk.text resp = Some txt -> txt <> "" -> reply = txt))
  /\
  (forall resp,
     Sdk.models_generateContent ai t audio = inr resp ->
     fst (Sdk.transcribeAudio ai base64 mimeType t)
     = Fulfilled (truthy_or (Sdk.text resp) "")).
Proof.
  cbv zeta. unfold Sdk.queryDeepDive, Sdk.transcribeAudio, Sdk.editImage.
  rewrite !sdk_single_call. repeat split.
  - now destruct (Sdk.models_generateContent ai t _).
  - now destruct (Sdk.models_generateContent ai t _).
  - destruct (Sdk.models_generateContent ai t (Sdk.edit_request _ _ _));
      [reflexivity|].
    now destruct (Sdk.first_inline _).
  - intros e ->. reflexivity.
  - intros e ->. reflexivity.
  - intros e ->. reflexivity.
  - intros resp ->. eexists. split; [reflexivity|]. split.
    + apply truthy_or_not_empty. discriminate.
    + intros txt -> N. now apply truthy_or_nonempty.
  - intros resp ->. reflexivity.
Qed.

Lemma direct_calls_do_not_fall_back_witness :
  let e := Error "404 Not Found" in
  fst (Sdk.queryDeepDive (Sdk.scripted [inl e; inr (Sdk.text_response (Some "hi"))])
         [] "notes" "Why?" [])
  = Rejected e.
Proof.
  intros e.
  apply (proj1 (proj2 (direct_calls_do_not_fall_back
                         (Sdk.scripted [inl e; inr (Sdk.text_response (Some "hi"))])
                         [] [] "notes" "Why?" "" "" "")) e).
  reflexivity.
Defined.

(** X13. [generateImage] sends its request to the flash image model
    without an [imageSize] for size 1K, and to the Pro image model with
    [imageSize] set to the size for 2K and 4K.  It issues one call, or two
    when the first fails as capability-unavailable: the second then goes
    to gemini-2.5-flash with the same contents and image configuration. *)
Theorem image_request_routing (ai : Sdk.Remote) (prompt : string)
  (size : Sdk.ImageSize) (aspect : Sdk.ImageAspect) (t : Sdk.Trace) :
  let params := Sdk.image_params prompt size aspect in
  let primary := {| Sdk.model := Sdk.image_model size; Sdk.payload := params |} in
  let fallback := {| Sdk.model := FLASH; Sdk.payload := params |} in
  let sent :=
    Sdk.calls (skipn (List.length t) (snd (Sdk.generateImage ai prompt size aspect t))) in
  (sent = [primary] \/ sent = [primary; fallback])
  /\ (sent = [primary; fallback] <->
      exists e, Sdk.models_generateContent ai t primary = inl e
                /\ capability_unavailable e)
  /\ (size = Sdk.Size1K ->
      Sdk.model primary = "gemini-2.5-flash-image"
      /\ Sdk.config params
         = Some {| Sdk.systemInstruction := None;
                   Sdk.imageConfig :=
                     Some {| Sdk.aspectRatio := aspect; Sdk.imageSize := None |} |})
  /\ (size <> Sdk.Size1K ->
      Sdk.model primary = "gemini-3-pro-image-preview"
      /\ Sdk.config params
         = Some {| Sdk.systemInstruction := None;
                   Sdk.imageConfig :=
                     Some {| Sdk.aspectRatio := aspect;
                             Sdk.imageSize := Some size |} |}).
Proof.
  intros params primary fallback sent.
  assert (T : snd (Sdk.generateImage ai prompt size aspect t)
              = snd (Sdk.generateContentWithFallback ai (Sdk.image_model size)
                       params t)).
  { unfold Sdk.generateImage, Sdk.bind. fold params.
    destruct (Sdk.generateContentWithFallback ai _ params t) as [[a|e|] t'];
      try reflexivity.
    now destruct (Sdk.first_inline _). }
  assert (E : sent =
              match Sdk.models_generateContent ai t primary with
              | inl e => if is_unavailable e then [primary; fallback] else [primary]
              | inr _ => [primary]
              end).
  { subst sent. rewrite T, sdk_fallback_run. cbv zeta. fold primary.
    destruct (Sdk.models_generateContent ai t primary) as [e|resp].
    - destruct (is_unavailable e); cbn [snd].
      + now rewrite <- app_assoc, skipn_issued.
      + now rewrite skipn_issued.
    - cbn [snd]. now rewrite skipn_issued. }
  rewrite E. clear E T sent. split; [|split; [|split]].
  - destruct (Sdk.models_generateContent ai t primary) as [e|resp];
      [destruct (is_unavailable e)|]; auto.
  - destruct (Sdk.models_generateContent ai t primary) as [e|resp];
      [destruct (is_unavailable e) eqn:U|].
    + split; [|reflexivity]. intros _. exists e. split; [reflexivity|].
      now apply is_unavailable_spec.
    + split; [discriminate|]. intros (e' & [= <-] & C).
      apply not_unavailable_spec in U. contradiction.
    + split; [discriminate|]. intros (e' & [=] & _).
  - intros ->. split; reflexivity.
  - intros N. destruct size; [congruence | split; reflexivity | split; reflexivity].
Qed.

Lemma image_request_routing_witness :
  let ai := Sdk.scripted [inl (Error "404 model not found");
                          inr (Sdk.image_response [InlineData "iVBORw0KGgo" "image/jpeg"])] in
  Sdk.calls (snd (Sdk.generateImage ai "a leaf" Sdk.Size4K Sdk.Ratio16x9 []))
  = [ {| Sdk.model := "gemini-3-pro-image-preview";
         Sdk.payload := Sdk.image_params "a leaf" Sdk.Size4K Sdk.Ratio16x9 |};
      {| Sdk.model := "gemini-2.5-flash";
         Sdk.payload := Sdk.image_params "a leaf" Sdk.Size4K Sdk.Ratio16x9 |} ].
Proof.
  intros ai.
  apply (proj2 (proj1 (proj2 (image_request_routing ai "a leaf" Sdk.Size4K
                                Sdk.Ratio16x9 [])))).
  exists (Error "404 model not found"). split; [reflexivity|].
  apply is_unavailable_spec. reflexivity.
Defined.

(** X14. The image functions return a data URL built from the first part
    of the first candidate that holds inline data, skipping the text parts
    before it; the URL is always labelled [image/png], whatever MIME type
    the part carries.  When no part holds inline data, [generateImage]
    throws "No image generated" and [editImage] "No edited image
    generated", with no further call. *)
Theorem image_result (ai : Sdk.Remote) (prompt base64 mimeType : string)
  (size : Sdk.ImageSize) (aspect : Sdk.ImageAspect) (t t' : Sdk.Trace)
  (resp : Sdk.Response) :
  (Sdk.generateContentWithFallback ai (Sdk.image_model size)
     (Sdk.image_params prompt size aspect) t = (Fulfilled resp, t') ->
   (forall texts data mime after,
      Sdk.response_parts resp = (map TextPart texts ++ InlineData data mime :: after)%list ->
      Sdk.generateImage ai prompt size aspect t
      = (Fulfilled ("data:image/png;base64," ++ data), t'))
   /\
   ((forall p, In p (Sdk.response_parts resp) -> exists txt, p = TextPart txt) ->
    Sdk.generateImage ai prompt size aspect t
    = (Rejected (Error "No image generated"), t')))
  /\
  (Sdk.models_generateContent ai t (Sdk.edit_request base64 mimeType prompt) = inr resp ->
   (forall texts data mime after,
      Sdk.response_parts resp = (map TextPart texts ++ InlineData data mime :: after)%list ->
      fst (Sdk.editImage ai base64 mimeType prompt t)
      = Fulfilled ("data:image/png;base64," ++ data))
   /\
   ((forall p, In p (Sdk.response_parts resp) -> exists txt, p = TextPart txt) ->
    fst (Sdk.editImage ai base64 mimeType prompt t)
    = Rejected (Error "No edited image generated"))).
Proof.
  split; intros H.
  - unfold Sdk.generateImage, Sdk.bind. rewrite H. split.
    + intros texts data mime after P. now rewrite P, first_inline_found.
    + intros P. now rewrite (first_inline_none _ P).
  - unfold Sdk.editImage. rewrite sdk_single_call, H. split.
    + intros texts data mime after P. now rewrite P, first_inline_found.
    + intros P. now rewrite (first_inline_none _ P).
Qed.

Lemma image_result_witness :
  let resp := Sdk.image_response [TextPart "Here is your image.";
                                  InlineData "/9j/4AAQSkZJRg" "image/jpeg"] in
  fst (Sdk.editImage (Sdk.scripted [inr resp]) "iVBORw0KGgo" "image/png"
         "make it green" [])
  = Fulfilled "data:image/png;base64,/9j/4AAQSkZJRg".
Proof.
  intros resp.
  apply (proj1 (proj2 (image_result (Sdk.scripted [inr resp]) "make it green"
                         "iVBORw0KGgo" "image/png" Sdk.Size1K Sdk.Ratio1x1 [] []
                         resp) eq_refl)
           ["Here is your image."] "/9j/4AAQSkZJRg" "image/jpeg" []).
  reflexivity.
Defined.

(* ================================================================== *)
(** ** The video job, whatever the endpoint answers *)

Section VideoJob.

Variable ai : Remote.

(** The loop only ever sleeps 5 seconds and fetches an operation that is
    not done, at most once per round. *)
Lemma poll_trace (rounds : nat) (operation : Operation) (t : Trace) :
  exists ops,
    snd (poll ai rounds operation t) = (t ++ poll_events ops)%list
    /\ List.length ops <= rounds
    /\ Forall (fun o => is_done o = false) ops.
Proof.
  revert operation t; induction rounds as [|n IH]; intros operation t.
  - exists []. simpl. destruct (is_done operation); simpl;
      rewrite app_nil_r; auto.
  - destruct (is_done operation) eqn:D.
    + exists []. rewrite (poll_done ai _ _ _ D). simpl.
      rewrite app_nil_r. repeat split; [lia | constructor].
    + rewrite (poll_round ai n operation t D).
      destruct (operations_getVideosOperation ai _ operation) as [e|next].
      * exists [operation]. simpl. repeat split; [lia | auto].
      * destruct (IH next (t ++ [SetTimeout 5000; GetVideosOperation operation])%list)
          as (ops & E & L & F).
        exists (operation :: ops). rewrite E, <- app_assoc. simpl.
        repeat split; [lia | auto].
Qed.

Lemma generateVeoVideo_trace (rounds : nat) (prompt : string)
  (inputImageBase64 inputImageMime : option string) (aspectRatio : AspectRatio)
  (t : Trace) :
  snd (generateVeoVideo ai rounds prompt inputImageBase64 inputImageMime aspectRatio t)
  = snd (veo_body ai rounds
           (veo_params prompt inputImageBase64 inputImageMime aspectRatio) t).
Proof.
  rewrite generateVeoVideo_run.
  now destruct (veo_body ai rounds _ t) as [[u|e|] t'].
Qed.

End VideoJob.

(** X15. Whatever the endpoint answers, [generateVeoVideo] submits the job
    exactly once, as its first event, and after that only sleeps 5 seconds
    and fetches operations that are not done, in pairs and at most once
    per round: it never resubmits.  The job submitted by the video screen
    asks for one 1080p video from the fast Veo model and carries the
    selected image only when both its base64 text and its MIME type are
    non-empty. *)
Theorem veo_submits_once (ai : Remote) (rounds : nat) (prompt : string)
  (imageFile : option StudyArchitect.File) (aspectRatio : AspectRatio) (t : Trace) :
  let params := VeoGen.submitted_params prompt imageFile aspectRatio in
  let run :=
    generateVeoVideo ai rounds prompt
      (option_map StudyArchitect.file_base64 imageFile)
      (option_map StudyArchitect.file_type imageFile) aspectRatio t in
  (exists ops,
     snd run = (t ++ GenerateVideos params :: poll_events ops)%list
     /\ List.length ops <= rounds
     /\ Forall (fun o => is_done o = false) ops)
  /\ video_model params = "veo-3.1-fast-generate-preview"
  /\ numberOfVideos (video_config params) = 1%Z
  /\ resolution (video_config params) = "1080p"
  /\ (forall f,
        imageFile = Some f ->
        StudyArchitect.file_base64 f <> "" -> StudyArchitect.file_type f <> "" ->
        image params = Some {| imageBytes := StudyArchitect.file_base64 f;
                               image_mimeType := StudyArchitect.file_type f |})
  /\ (forall f,
        imageFile = Some f ->
        StudyArchitect.file_base64 f = "" \/ StudyArchitect.file_type f = "" ->
        image params = None)
  /\ (imageFile = None -> image params = None).
Proof.
  cbv zeta. split.
  - rewrite generateVeoVideo_trace, veo_body_run.
    fold (VeoGen.submitted_params prompt imageFile aspectRatio).
    destruct (models_generateVideos ai t _) as [e|submitted].
    + exists []. simpl. repeat split; [lia | constructor].
    + destruct (poll_trace ai rounds submitted
                  (t ++ [GenerateVideos (VeoGen.submitted_params prompt imageFile
                                           aspectRatio)])%list)
        as (ops & E & L & F).
      exists ops. split; [|auto].
      destruct (poll ai rounds submitted _) as [[o|e|] t']; simpl in *;
        rewrite E, <- app_assoc; reflexivity.
  - repeat split.
    + intros f -> B T. simpl.
      destruct (StudyArchitect.file_base64 f); [congruence|].
      destruct (StudyArchitect.file_type f); [congruence | reflexivity].
    + intros f -> [B | T]; simpl.
      * now rewrite B.
      * rewrite T. now destruct (StudyArchitect.file_base64 f).
    + intros ->. reflexivity.
Qed.

Lemma veo_submits_once_witness :
  let untyped := {| StudyArchitect.file_name := "frame";
                    StudyArchitect.file_type := "";
                    StudyArchitect.file_base64 := "iVBORw0KGgo" |} in
  image (VeoGen.submitted_params "a cat" (Some untyped) Landscape16x9) = None.
Proof.
  intros untyped.
  apply (proj1 (proj2 (proj2 (proj2 (proj2 (proj2
           (veo_submits_once (Sample.video_job (inr Sample.running) []) 0 "a cat"
              (Some untyped) Landscape16x9 []))))))
           untyped eq_refl).
  now right.
Defined.

(** X16. The message the video screen shows for a failed generation is
    "Generation Failed. " followed by the message of the error that
    [generateVeoVideo] threw: for an error of the submission or of a poll
    whose message contains "404" or "not found" it is always the
    Veo-not-available text, and for any other error of the body it is that
    error's own message (nothing, when it has none). *)
Theorem veo_error_banner (ai : Remote) (rounds : nat) (prompt : string)
  (inputImageBase64 inputImageMime : option string) (aspectRatio : AspectRatio)
  (t t' : Trace) (e : JsError) :
  veo_body ai rounds
    (veo_params prompt inputImageBase64 inputImageMime aspectRatio) t
  = (Rejected e, t') ->
  exists thrown,
    generateVeoVideo ai rounds prompt inputImageBase64 inputImageMime aspectRatio t
    = (Rejected thrown, t')
    /\ (capability_unavailable e ->
        VeoGen.error_text thrown
        = "Generation Failed. Veo model not available with current API Key. This feature requires a specific paid tier or region.")
    /\ (~ capability_unavailable e ->
        VeoGen.error_text thrown
        = "Generation Failed. " ++ truthy_or (message e) "")
    /\ (e = NO_URI ->
        VeoGen.error_text thrown
        = "Generation Failed. Video generation failed or no URI returned").
Proof.
  intros B. rewrite generateVeoVideo_run, B. eexists. split; [reflexivity|].
  repeat split.
  - intros U. apply is_unavailable_spec in U. now rewrite U.
  - intros U. apply not_unavailable_spec in U. now rewrite U.
  - intros ->. reflexivity.
Qed.

Lemma veo_error_banner_witness :
  let e := Error "operation not found" in
  let ai := Sample.video_job (inr Sample.running) [inr Sample.still_running; inl e] in
  exists thrown,
    fst (generateVeoVideo ai 5 "a cat" None None Landscape16x9 []) = Rejected thrown
    /\ VeoGen.error_text thrown
       = "Generation Failed. Veo model not available with current API Key. This feature requires a specific paid tier or region.".
Proof.
  intros e ai.
  destruct (veo_error_banner ai 5 "a cat" None None Landscape16x9 []
              (snd (veo_body ai 5 (veo_params "a cat" None None Landscape16x9) []))
              e eq_refl) as (thrown & R & U & _).
  exists thrown. rewrite R. split; [reflexivity|].
  apply U. apply is_unavailable_spec. reflexivity.
Defined.
